(** * Tencent-Stock-Agent: the aggregation / cache / rating pipeline of app.py

    A shallow embedding of the back end's core (src/app.py): the TTL cache,
    the quote and K-line fetchers, the news ranking, the SSE consumption loop
    of the streaming relay, the templated fallback report and the daily
    rating engine, followed by the properties the specification states about
    them.

    Conventions.
    - A Python [str] is a Rocq [string] holding its UTF-8 bytes.
    - A value decoded by [json.loads] / [resp.json()] is a [json] tree whose
      objects are association lists in insertion order; the quote dict,
      [_cache] and [_rating_cache] are finite maps ([gmap]) keyed by [str].
    - [time.time()] readings are rationals (seconds); every function that
      reads the clock receives the reading as an argument.
    - Outbound HTTP calls are answered by oracles passed as arguments, and
      every call is appended to a request log kept beside the two caches.
    - A raised exception is the [Raise] branch of [res].
    - Coroutines joined by [asyncio.gather] touch disjoint cache keys; they
      are run one after the other, in the order they are listed. *)

From Stdlib Require Import ZArith QArith Floats Ascii String List Bool Lia.
From stdpp Require Import base option list strings pretty gmap fin_maps.

Set Default Proof Using "Type".
Set Warnings "-register-all,-clear-no-such-hyp".
Local Open Scope Z_scope.

(* ===================================================================== *)
(** ** Python values and exceptions *)
(* ===================================================================== *)

(** What [json.loads] returns: None, bool, int, float, str, list, dict. *)
Inductive json : Type :=
| JNull
| JBool (b : bool)
| JInt (z : Z)
| JFloat (f : float)
| JStr (s : string)
| JArr (l : list json)
| JObj (kv : list (string * json)).

(** The exception classes the modelled code can meet. *)
Inductive exn : Type :=
| KeyError
| IndexError
| TypeError
| AttributeError
| ValueError
| OverflowError
| JSONDecodeError
| TransportError
| PlainException (msg : string).

Inductive res (A : Type) : Type :=
| Ok (a : A)
| Raise (e : exn).
Arguments Ok {A} a.
Arguments Raise {A} e.

#[global] Instance res_ret : MRet res := fun A a => Ok a.
#[global] Instance res_bind : MBind res := fun A B k m =>
  match m with
  | Ok a => k a
  | Raise e => Raise e
  end.

(** [KeyError] when the key is missing, as [d[k]] does. *)
Definition or_raise {A} (e : exn) (o : option A) : res A :=
  match o with
  | Some a => Ok a
  | None => Raise e
  end.

(** [dict] operations on an association list with unique keys. *)
Fixpoint dict_get (k : string) (kv : list (string * json)) : option json :=
  match kv with
  | [] => None
  | (k', v) :: rest => if String.eqb k k' then Some v else dict_get k rest
  end.

(** [d[k] = v]: replaces the value in place, or appends a new key. *)
Fixpoint dict_set (k : string) (v : json) (kv : list (string * json))
  : list (string * json) :=
  match kv with
  | [] => [(k, v)]
  | (k', v') :: rest =>
      if String.eqb k k' then (k', v) :: rest else (k', v') :: dict_set k v rest
  end.

(* ===================================================================== *)
(** ** Python [str] operations on UTF-8 strings *)
(* ===================================================================== *)

(** A UTF-8 continuation byte (10xxxxxx). *)
Definition utf8_cont (a : ascii) : bool :=
  let n := nat_of_ascii a in (128 <=? n)%nat && (n <? 192)%nat.

(** The continuation bytes that follow a lead byte, and the rest. *)
Fixpoint take_cont (s : string) : string * string :=
  match s with
  | String a rest =>
      if utf8_cont a
      then let '(c, r) := take_cont rest in (String a c, r)
      else (EmptyString, s)
  | EmptyString => (EmptyString, EmptyString)
  end.

(** The characters (code points) of a [str], each as its own UTF-8 string. *)
Fixpoint code_points_fuel (fuel : nat) (s : string) : list string :=
  match fuel with
  | O => []
  | S fuel' =>
      match s with
      | EmptyString => []
      | String a rest =>
          let '(c, r) := take_cont rest in
          String a c :: code_points_fuel fuel' r
      end
  end.

Definition code_points (s : string) : list string :=
  code_points_fuel (String.length s) s.

Definition join_points (l : list string) : string :=
  fold_right String.append EmptyString l.

(** The line feed, [\n]. *)
Definition LF : string := String (ascii_of_nat 10) EmptyString.

(** [len(s)] *)
Definition str_len (s : string) : Z := Z.of_nat (length (code_points s)).

Definition bytes_of (l : list nat) : string :=
  fold_right (fun n s => String (ascii_of_nat n) s) EmptyString l.

(** The characters [str.isspace] accepts (and the regex class [\s] on [str]
    patterns): TAB..CR, FS..US, SPACE, U+0085, U+00A0, U+1680,
    U+2000..U+200A, U+2028, U+2029, U+202F, U+205F, U+3000. *)
Definition unicode_spaces : list string :=
  map bytes_of
    ([[9]; [10]; [11]; [12]; [13]; [28]; [29]; [30]; [31]; [32];
      [194; 133]; [194; 160]; [225; 154; 128]] ++
     map (fun k => [226; 128; k]) (seq 128 11) ++
     [[226; 128; 168]; [226; 128; 169]; [226; 128; 175];
      [226; 129; 159]; [227; 128; 128]])%nat.

Definition is_space (c : string) : bool :=
  existsb (String.eqb c) unicode_spaces.

Fixpoint drop_while {A} (f : A -> bool) (l : list A) : list A :=
  match l with
  | x :: rest => if f x then drop_while f rest else l
  | [] => []
  end.

(** [s.lstrip()], [s.strip()] *)
Definition lstrip_points (l : list string) : list string := drop_while is_space l.
Definition strip_points (l : list string) : list string :=
  rev (drop_while is_space (rev (drop_while is_space l))).
Definition str_lstrip (s : string) : string := join_points (lstrip_points (code_points s)).
Definition str_strip (s : string) : string := join_points (strip_points (code_points s)).

(** [s.startswith(p)] *)
Definition startswith (p s : string) : bool := String.prefix p s.

(** [s[n:]] for a prefix of [n] one-byte characters. *)
Fixpoint drop_bytes (n : nat) (s : string) : string :=
  match n, s with
  | O, _ => s
  | S n', String _ rest => drop_bytes n' rest
  | S _, EmptyString => EmptyString
  end.

(** Splits at the first occurrence of [p]: the text before it and after it. *)
Fixpoint find_sub (p s : string) : option (string * string) :=
  if String.prefix p s then Some (EmptyString, drop_bytes (String.length p) s)
  else match s with
       | EmptyString => None
       | String a rest =>
           match find_sub p rest with
           | Some (b, r) => Some (String a b, r)
           | None => None
           end
       end.

(** [p in s] on two [str]. *)
Definition str_contains (p s : string) : bool :=
  match find_sub p s with Some _ => true | None => false end.

(** [s.split(sep)] for a one-byte separator. *)
Fixpoint str_split (sep : ascii) (s : string) : list string :=
  match s with
  | EmptyString => [EmptyString]
  | String a rest =>
      match str_split sep rest with
      | cur :: more =>
          if Ascii.eqb a sep then EmptyString :: cur :: more
          else String a cur :: more
      | [] => [String a EmptyString]
      end
  end.

(* ===================================================================== *)
(** ** Dynamic operations on decoded values *)
(* ===================================================================== *)

(** Structural equality of decoded values as [==] decides it between a
    value and a [str]: only an equal [str] is equal to a [str]. *)
Definition json_eq_str (v : json) (s : string) : bool :=
  match v with
  | JStr s' => String.eqb s' s
  | _ => false
  end.

(** Truthiness: [bool(v)]. *)
Definition json_truthy (v : json) : bool :=
  match v with
  | JNull => false
  | JBool b => b
  | JInt z => negb (z =? 0)
  | JFloat f => negb (PrimFloat.eqb f PrimFloat.zero)
  | JStr s => negb (String.eqb s EmptyString)
  | JArr l => match l with [] => false | _ => true end
  | JObj kv => match kv with [] => false | _ => true end
  end.

(** [k in v] for a [str] key [k]. *)
Definition py_in (k : string) (v : json) : res bool :=
  match v with
  | JObj kv => Ok (match dict_get k kv with Some _ => true | None => false end)
  | JArr l => Ok (existsb (fun x => json_eq_str x k) l)
  | JStr s => Ok (str_contains k s)
  | _ => Raise TypeError
  end.

(** [v[k]] for a [str] key [k]. *)
Definition py_getitem (v : json) (k : string) : res json :=
  match v with
  | JObj kv => or_raise KeyError (dict_get k kv)
  | _ => Raise TypeError
  end.

(** [l[i]] on a list, negative indices counting from the end. *)
Definition list_index {A} (l : list A) (i : Z) : option A :=
  let n := Z.of_nat (length l) in
  if (0 <=? i) && (i <? n) then l !! Z.to_nat i
  else if (i <? 0) && (0 <=? n + i) then l !! Z.to_nat (n + i)
  else None.

(** [v[i]] for an [int] index [i]. *)
Definition py_index (v : json) (i : Z) : res json :=
  match v with
  | JArr l => or_raise IndexError (list_index l i)
  | JStr s => c ← or_raise IndexError (list_index (code_points s) i); Ok (JStr c)
  | JObj _ => Raise KeyError
  | _ => Raise TypeError
  end.

(** [v.get(k, d)]: an attribute of [dict] only. *)
Definition py_get (v : json) (k : string) (d : json) : res json :=
  match v with
  | JObj kv => Ok (default d (dict_get k kv))
  | _ => Raise AttributeError
  end.

(** [len(v)] *)
Definition py_len (v : json) : res Z :=
  match v with
  | JArr l => Ok (Z.of_nat (length l))
  | JObj kv => Ok (Z.of_nat (length kv))
  | JStr s => Ok (str_len s)
  | _ => Raise TypeError
  end.

(** [int(v)] on a [float]: truncation toward zero; OverflowError on an
    infinity and ValueError on a NaN. *)
Definition float_trunc (f : float) : res Z :=
  match Prim2SF f with
  | S754_zero _ => Ok 0
  | S754_infinity _ => Raise OverflowError
  | S754_nan => Raise ValueError
  | S754_finite neg m e =>
      let a := if 0 <=? e then Z.pos m * 2 ^ e else Z.pos m / 2 ^ (- e) in
      Ok (if neg then - a else a)
  end.

(* ===================================================================== *)
(** ** Data model *)
(* ===================================================================== *)

(** A news dict: title, url, source, time, summary, tag and the optional
    lang key (only the international feed sets it). *)
Record NewsItem : Type := mkNews {
  n_title : string;
  n_url : string;
  n_source : string;
  n_time : string;
  n_summary : string;
  n_tag : string;
  n_lang : option string
}.

(** A K-line dict as [fetch_kline_data] builds it. *)
Record KlinePoint : Type := mkKline {
  k_date : json;
  k_open : float;
  k_close : float;
  k_high : float;
  k_low : float;
  k_volume : json
}.

(** [stock_info]: a dict from field name to the provider's value. *)
Abbreviation quote := (gmap string json).

(** What [_cache] holds: a quote dict, a K-line list or a news list. *)
Inductive value : Type :=
| VQuote (q : quote)
| VKline (l : list KlinePoint)
| VNews (l : list NewsItem).

(** [bool(v)] for a cached object: a non-empty dict or list. *)
Definition truthy (v : value) : bool :=
  match v with
  | VQuote q => negb (Nat.eqb (size q) 0)
  | VKline l => negb (Nat.eqb (length l) 0)
  | VNews l => negb (Nat.eqb (length l) 0)
  end.

(** An outbound HTTP call, as the request log records it. *)
Inductive request : Type :=
| GetSinaQuote
| GetTencentQuote
| GetKline (period : string) (count : Z)
| GetNewsSources
| PostRatingCompletion.

Abbreviation cache := (gmap string (Q * value)).

(** The process-wide state: [_cache], [_rating_cache], and the log of the
    upstream calls issued so far. *)
Record world : Type := mkWorld {
  w_cache : cache;
  w_rating : gmap string json;
  w_log : list request
}.

Definition with_cache (c : cache) (w : world) : world :=
  mkWorld c (w_rating w) (w_log w).
Definition with_rating (r : gmap string json) (w : world) : world :=
  mkWorld (w_cache w) r (w_log w).
Definition logged (rq : request) (w : world) : world :=
  mkWorld (w_cache w) (w_rating w) (w_log w ++ [rq]).

(* ===================================================================== *)
(** ** TTL cache (app.py 46-63) *)
(* ===================================================================== *)

Definition CACHE_TTL : Q := 300%Q.

(** [_get_cache(key)] at clock reading [now]; [None] is Python's None. *)
Definition _get_cache (now : Q) (key : string) (c : cache) : option value :=
  match c !! key with
  | Some (ts, data) =>
      if Qlt_le_dec (now - ts) CACHE_TTL then Some data else None
  | None => None
  end.

(** [_set_cache(key, data)] at clock reading [now]. *)
Definition _set_cache (now : Q) (key : string) (data : value) (c : cache) : cache :=
  <[key := (now, data)]> c.

(** [_cache.clear()] *)
Definition clear_cache (c : cache) : cache := ∅.

(** The callers' hit test, [if cached:]. *)
Definition cache_hit (o : option value) : bool :=
  match o with
  | Some v => truthy v
  | None => false
  end.

(** One step of a cache client: a write, or the wholesale clear. *)
Inductive cache_op : Type :=
| OpSet (now : Q) (key : string) (data : value)
| OpClear.

Definition run_op (c : cache) (op : cache_op) : cache :=
  match op with
  | OpSet now key data => _set_cache now key data c
  | OpClear => clear_cache c
  end.

Definition run_ops (ops : list cache_op) (c : cache) : cache :=
  fold_left run_op ops c.

Definition sets_key (key : string) (op : cache_op) : bool :=
  match op with
  | OpSet _ k _ => String.eqb k key
  | OpClear => false
  end.

(** The two clock readings of one fetch: at the lookup and at the store. *)
Record readings : Type := mkReadings {
  at_lookup : Q;
  at_store : Q
}.

(* ===================================================================== *)
(** ** Quote fetcher (app.py 69-163) *)
(* ===================================================================== *)

Definition sentinel : json := JStr "--".

(** The record every fetch starts from; [stamp] is the rendered clock. *)
Definition initial_stock_info (stamp : string) : quote :=
  list_to_map
    [("name", JStr "腾讯控股"); ("code", JStr "00700.HK");
     ("current_price", sentinel); ("change", sentinel);
     ("change_percent", sentinel); ("open", sentinel); ("high", sentinel);
     ("low", sentinel); ("prev_close", sentinel); ("volume", sentinel);
     ("turnover", sentinel); ("market_cap", sentinel); ("pe_ratio", sentinel);
     ("52w_high", sentinel); ("52w_low", sentinel);
     ("updated_at", JStr stamp)].

Definition dquote : ascii := ascii_of_nat 34.

(** The primary feed's answer with status 200: text of the form
    [var hq_str_rt_hk00700=<quoted comma-separated fields>]. *)
Definition sina_merge (stamp : string) (text : string) (q : quote) : quote :=
  if str_contains (String dquote EmptyString) text then
    let data_str := default EmptyString (str_split dquote text !! 1%nat) in
    let fields := str_split "," data_str in
    let fld i := default EmptyString (fields !! i) in
    if (15 <? length fields)%nat then
      <["name" := JStr "腾讯控股"]>
      (<["name_en" := JStr (if String.eqb (fld 0%nat) EmptyString
                            then "TENCENT" else fld 0%nat)]>
      (<["current_price" := JStr (fld 6%nat)]>
      (<["change" := JStr (fld 7%nat)]>
      (<["change_percent" := JStr (fld 8%nat)]>
      (<["prev_close" := JStr (fld 3%nat)]>
      (<["open" := JStr (fld 2%nat)]>
      (<["high" := JStr (fld 4%nat)]>
      (<["low" := JStr (fld 5%nat)]>
      (<["volume" := JStr (fld 12%nat)]>
      (<["turnover" := JStr (fld 11%nat)]>
      (<["updated_at" := JStr stamp]> q)))))))))))
    else q
  else q.

(** [qt[i] if len(qt) > i else "--"] *)
Definition qt_field (qt : json) (i : Z) : res json :=
  n ← py_len qt;
  if i <? n then py_index qt i else Ok sentinel.

(** A dict assignment whose right-hand side may raise: the assignment
    happens and the block goes on, or the block stops with the dict as
    it is. *)
Definition assign (k : string) (r : res json)
    (next : quote -> quote * option exn) (q : quote) : quote * option exn :=
  match r with
  | Ok v => next (<[k := v]> q)
  | Raise e => (q, Some e)
  end.

Definition finish (q : quote) : quote * option exn := (q, None).

(** The assignments under [if qt and len(qt) > 45:] (lines 146-158). *)
Definition qt_assignments (qt : json) (q : quote) : quote * option exn :=
  (if json_eq_str (default JNull (q !! "current_price")) "--"
   then assign "current_price" (py_index qt 3)
   else fun next => next)
  (assign "market_cap" (qt_field qt 45)
  (assign "pe_ratio" (qt_field qt 39)
  (assign "52w_high" (qt_field qt 48)
  (assign "52w_low" (qt_field qt 49)
  (assign "dividend_yield" (qt_field qt 47)
  (assign "pb_ratio" (qt_field qt 51)
  (assign "turnover_rate" (qt_field qt 50)
  (assign "amplitude" (qt_field qt 43)
  (assign "total_shares" (qt_field qt 69)
  (assign "float_shares" (qt_field qt 70)
  (assign "nav_per_share" (qt_field qt 72) finish))))))))))) q.

(** The navigation to [qt] (lines 143-144). *)
Definition find_qt (data : json) : res (option json) :=
  has_data ← py_in "data" data;
  if (has_data : bool) then
    d ← py_getitem data "data";
    has_hk ← py_in "hk00700" d;
    if (has_hk : bool) then
      hk ← py_getitem d "hk00700";
      qt0 ← py_get hk "qt" (JObj []);
      qt ← py_get qt0 "hk00700" (JArr []);
      Ok (Some qt)
    else Ok None
  else Ok None.

(** The secondary feed's decoded answer with status 200 (lines 142-158);
    an exception leaves the dict as it stands and is only printed. *)
Definition tencent_merge (data : json) (q : quote) : quote * option exn :=
  match find_qt data with
  | Raise e => (q, Some e)
  | Ok None => (q, None)
  | Ok (Some qt) =>
      if json_truthy qt then
        match py_len qt with
        | Raise e => (q, Some e)
        | Ok n => if 45 <? n then qt_assignments qt q else (q, None)
        end
      else (q, None)
  end.

(** The upstream side of one quote fetch: an answer is [Some] when the feed
    replied with status 200 (and, for the secondary feed, a body that
    decodes as JSON); a transport error, another status or an undecodable
    body is [None]. *)
Record quote_env : Type := mkQuoteEnv {
  q_clock : readings;
  q_stamp0 : string;
  q_stamp1 : string;
  q_sina : option string;
  q_tencent : option json
}.

(** The record built on a cache miss (lines 82-160). *)
Definition build_stock_info (e : quote_env) : quote :=
  let q0 := initial_stock_info (q_stamp0 e) in
  let q1 := match q_sina e with
            | Some text => sina_merge (q_stamp1 e) text q0
            | None => q0
            end in
  match q_tencent e with
  | Some data => fst (tencent_merge data q1)
  | None => q1
  end.

Definition fetch_stock_data (e : quote_env) (w : world) : value * world :=
  let miss :=
    let info := VQuote (build_stock_info e) in
    let w1 := logged GetTencentQuote (logged GetSinaQuote w) in
    (info, with_cache (_set_cache (at_store (q_clock e)) "stock_data" info (w_cache w1)) w1) in
  match _get_cache (at_lookup (q_clock e)) "stock_data" (w_cache w) with
  | Some v => if truthy v then (v, w) else miss
  | None => miss
  end.

(* ===================================================================== *)
(** ** K-line fetcher (app.py 166-213) *)
(* ===================================================================== *)

(** [f"kline_{period}_{count}"] *)
Definition kline_cache_key (period : string) (count : Z) : string :=
  "kline_" +:+ period +:+ "_" +:+ pretty count.

(** [if period not in ("day", "week", "month"): period = "day"] *)
Definition normalize_period (period : string) : string :=
  if existsb (String.eqb period) ["day"; "week"; "month"] then period else "day".

(** [count = min(max(count, 10), 1500)] *)
Definition normalize_count (count : Z) : Z := Z.min (Z.max count 10) 1500.

(** The upstream side of one K-line fetch: [k_feed period count] is the
    list the try block (lines 182-210) has appended to [kline_list] for
    the request built from [period] and [count]; it is empty when the
    call fails before the first row. *)
Record kline_env : Type := mkKlineEnv {
  k_clock : readings;
  k_feed : string -> Z -> list KlinePoint
}.

Definition fetch_kline_data (period : string) (count : Z)
    (e : kline_env) (w : world) : value * world :=
  let cache_key := kline_cache_key period count in
  let miss :=
    let period := normalize_period period in
    let count := normalize_count count in
    let kline_list := VKline (k_feed e period count) in
    let w1 := logged (GetKline period count) w in
    (kline_list,
     with_cache (_set_cache (at_store (k_clock e)) cache_key kline_list (w_cache w1)) w1) in
  match _get_cache (at_lookup (k_clock e)) cache_key (w_cache w) with
  | Some v => if truthy v then (v, w) else miss
  | None => miss
  end.

(* ===================================================================== *)
(** ** News aggregator (app.py 240-246, 289-401) *)
(* ===================================================================== *)

Definition _STOCK_KEYWORDS : list string :=
  ["股价"; "港股"; "涨"; "跌"; "市值"; "财报"; "营收"; "净利"; "利润";
   "研报"; "评级"; "目标价"; "回购"; "分红"; "派息"; "增持"; "减持";
   "大行"; "券商"; "分析师"; "投行"; "摩根"; "高盛"; "瑞银"; "花旗";
   "美银"; "汇丰"; "摩通"; "大摩"; "小摩"; "中金"; "中信"; "华泰";
   "估值"; "PE"; "市盈率"; "EPS"; "业绩"; "季报"; "年报"; "中报";
   "K线"; "均线"; "技术面"; "基本面"; "做多"; "做空"; "融资"; "融券";
   "恒生"; "恒指"; "科技股"; "中概股"; "ADR"; "成交额"; "换手率";
   "牛市"; "熊市"; "反弹"; "回调"; "突破"; "支撑"; "阻力";
   "00700"; "HK"; "控股";
   "stock"; "share"; "rally"; "surge"; "drop"; "plunge"; "dividend";
   "earnings"; "revenue"; "profit"; "valuation"; "analyst"; "upgrade";
   "downgrade"; "target price"; "buyback"; "IPO"; "HKEX";
   "Morgan"; "Goldman"; "UBS"; "Citi"; "HSBC"; "JP Morgan";
   "bull"; "bear"; "rally"; "sell-off"].

Definition _classify_news (title summary : string) : string :=
  let text := title +:+ summary in
  if existsb (fun kw => str_contains kw text) _STOCK_KEYWORDS
  then "stock" else "general".

(** The loop of lines 389-394 from a given [seen] set. *)
Fixpoint unique_from (seen : gset string) (all_news : list NewsItem)
  : list NewsItem :=
  match all_news with
  | [] => []
  | n :: rest =>
      if decide (n_title n ∈ seen) then unique_from seen rest
      else n :: unique_from ({[n_title n]} ∪ seen) rest
  end.

Definition unique_news (all_news : list NewsItem) : list NewsItem :=
  unique_from ∅ all_news.

(** [lambda x: (0 if x.get("tag") == "stock" else 1)] *)
Definition sort_key (x : NewsItem) : nat :=
  if String.eqb (n_tag x) "stock" then 0%nat else 1%nat.

(** [list.sort(key=...)] is a stable sort; the stable insertion sort is
    the sort it is modelled by. *)
Fixpoint insert_stable {A} (key : A -> nat) (x : A) (l : list A) : list A :=
  match l with
  | [] => [x]
  | y :: rest =>
      if (key x <=? key y)%nat then x :: y :: rest
      else y :: insert_stable key x rest
  end.

Fixpoint sort_stable {A} (key : A -> nat) (l : list A) : list A :=
  match l with
  | [] => []
  | x :: rest => insert_stable key x (sort_stable key rest)
  end.

(** Lines 388-399: de-duplicate, sort, keep the first 25. *)
Definition rank_news (all_news : list NewsItem) : list NewsItem :=
  take 25 (sort_stable sort_key (unique_news all_news)).

(** The upstream side of one news fetch: [nw_gathered] is [all_news] as the
    source calls of lines 301-386 leave it (a failed source adds nothing). *)
Record news_env : Type := mkNewsEnv {
  nw_clock : readings;
  nw_gathered : list NewsItem
}.

Definition fetch_news (e : news_env) (w : world) : value * world :=
  let miss :=
    let result := VNews (rank_news (nw_gathered e)) in
    let w1 := logged GetNewsSources w in
    (result, with_cache (_set_cache (at_store (nw_clock e)) "news_data" result (w_cache w1)) w1) in
  match _get_cache (at_lookup (nw_clock e)) "news_data" (w_cache w) with
  | Some v => if truthy v then (v, w) else miss
  | None => miss
  end.

(* ===================================================================== *)
(** ** Interpreter builtins taken as parameters *)
(* ===================================================================== *)

Section Pipeline.

(** [json.loads]: [None] stands for JSONDecodeError. *)
Variable json_loads : string -> option json.
(** [int(s)] on a [str]: [None] stands for ValueError. *)
Variable int_of_str : string -> option Z.
(** [str(e)] of an exception. *)
Variable exn_text : exn -> string.
(** The text an f-string renders for a decoded value that is not a [str],
    for a [float], and for a [float] under the format [+.2f]. *)
Variable render_other : json -> string.
Variable render_float : float -> string.
Variable render_signed_2f : float -> string.

(** [f"{v}"] *)
Definition render (v : json) : string :=
  match v with
  | JStr s => s
  | _ => render_other v
  end.

(** [int(v)] *)
Definition py_int (v : json) : res Z :=
  match v with
  | JInt z => Ok z
  | JBool b => Ok (if b then 1 else 0)
  | JFloat f => float_trunc f
  | JStr s => or_raise ValueError (int_of_str s)
  | _ => Raise TypeError
  end.

(* ===================================================================== *)
(** ** Consuming the completion stream (app.py 507-518, 941-952) *)
(* ===================================================================== *)

(** How the [async for] over the body lines ends: the lines ran out, the
    terminator broke the loop, or an exception left it. *)
Inductive loop_end : Type :=
| Exhausted
| Terminated
| Escaped (e : exn).

(** The body of the inner [try]: the fragment to yield, if any. *)
Definition chunk_fragment (data_str : string) : res (option json) :=
  chunk ← or_raise JSONDecodeError (json_loads data_str);
  choices ← py_getitem chunk "choices";
  first ← py_index choices 0;
  delta ← py_getitem first "delta";
  has ← py_in "content" delta;
  if (has : bool) then
    content ← py_getitem delta "content";
    Ok (Some content)
  else Ok None.

(** [except (json.JSONDecodeError, KeyError, IndexError): continue] *)
Definition skipped (e : exn) : bool :=
  match e with
  | JSONDecodeError | KeyError | IndexError => true
  | _ => false
  end.

(** The loop over [response.aiter_lines()]: the fragments yielded, in
    order, and how the loop ended. *)
Fixpoint consume_lines (lines : list string) : list json * loop_end :=
  match lines with
  | [] => ([], Exhausted)
  | line :: rest =>
      if startswith "data: " line then
        let data_str := drop_bytes 6 line in
        if String.eqb (str_strip data_str) "[DONE]" then ([], Terminated)
        else
          match chunk_fragment data_str with
          | Ok (Some content) =>
              let '(out, fin) := consume_lines rest in (content :: out, fin)
          | Ok None => consume_lines rest
          | Raise e =>
              if skipped e then consume_lines rest else ([], Escaped e)
          end
      else consume_lines rest
  end.

(** [s[:n]] in characters. *)
Definition str_take (n : nat) (s : string) : string :=
  join_points (take n (code_points s)).

(** [_stream_llm] once the upstream has answered with status 200: the
    fragments the generator yields for the given body lines. An exception
    that leaves the loop reaches [except Exception as e] (line 953). *)
Definition _stream_llm_success (lines : list string) : list json :=
  let '(out, fin) := consume_lines lines in
  match fin with
  | Escaped e =>
      out ++ [JStr (LF +:+ "> ⚠️ AI调用异常：" +:+ str_take 100 (exn_text e) +:+ LF)]
  | _ => out
  end.

(* ===================================================================== *)
(** ** Templated fallback report (app.py 524-655) *)
(* ===================================================================== *)

(** [stock_data.get(k, "--")] *)
Definition stock_get (stock_data : quote) (k : string) : json :=
  default sentinel (stock_data !! k).

(** [l[-n:]] *)
Definition last_n {A} (n : nat) (l : list A) : list A :=
  drop (length l - n) l.

(** [sum(xs)] over floats, from the integer 0. *)
Definition float_sum (xs : list float) : float :=
  fold_left PrimFloat.add xs PrimFloat.zero.

(** [a > b] on floats. *)
Definition float_gt (a b : float) : bool := PrimFloat.ltb b a.

(** Lines 532-549. *)
Definition trend_of (kline_data : list KlinePoint) : string :=
  if (5 <=? length kline_data)%nat then
    let closes := map k_close (last_n 5 kline_data) in
    let c_first := default PrimFloat.zero (head closes) in
    let c_last := default PrimFloat.zero (last closes) in
    let trend_text :=
      if float_gt c_last c_first then "近5个交易日整体呈上涨趋势"
      else if float_gt c_first c_last then "近5个交易日整体呈下跌趋势"
      else "近5个交易日整体呈震荡态势" in
    let avg_5 := PrimFloat.div (float_sum closes) 5%float in
    if (20 <=? length kline_data)%nat then
      let avg_20 :=
        PrimFloat.div (float_sum (map k_close (last_n 20 kline_data))) 20%float in
      if float_gt avg_5 avg_20
      then trend_text +:+ "，5日均线位于20日均线上方，短期偏多"
      else trend_text +:+ "，5日均线位于20日均线下方，短期偏空"
    else trend_text
  else EmptyString.

(** [LF.join(parts)] *)
Fixpoint join_lines (parts : list string) : string :=
  match parts with
  | [] => EmptyString
  | [p] => p
  | p :: rest => p +:+ LF +:+ join_lines rest
  end.

(** Lines 551-562. *)
Definition news_section_of (news_list : list NewsItem) : string :=
  match news_list with
  | [] => LF +:+ "### 📰 最新新闻动态" +:+ LF +:+ LF
          +:+ "暂未获取到最新的腾讯相关新闻。" +:+ LF
  | _ =>
      let news_items :=
        join_lines (map (fun n => "- " +:+ n_title n +:+ "（来源: " +:+ n_source n +:+ "）")
                        (take 8 news_list)) in
      LF +:+ "### 📰 最新新闻动态" +:+ LF +:+ LF +:+ news_items +:+ LF +:+ LF
      +:+ "以上新闻反映了市场对腾讯的最新关注点。投资者需结合新闻内容分析对股价的潜在影响。"
      +:+ LF
  end.

(** One row of the candle table (lines 567-570). *)
Definition kline_row (k : KlinePoint) : string :=
  let change_val := PrimFloat.sub (k_close k) (k_open k) in
  let emoji := if PrimFloat.leb PrimFloat.zero change_val then "🔴" else "🟢" in
  "| " +:+ render (k_date k) +:+ " | " +:+ render_float (k_open k)
  +:+ " | " +:+ render_float (k_close k) +:+ " | " +:+ render_float (k_high k)
  +:+ " | " +:+ render_float (k_low k) +:+ " | " +:+ emoji +:+ " "
  +:+ render_signed_2f change_val +:+ " |" +:+ LF.

(** Lines 564-574. *)
Definition kline_detail_of (kline_data : list KlinePoint) : string :=
  if (5 <=? length kline_data)%nat then
    let kline_rows := join_points (map kline_row (last_n 5 kline_data)) in
    LF +:+ "| 日期 | 开盘 | 收盘 | 最高 | 最低 | 涨跌 |" +:+ LF
    +:+ "|------|------|------|------|------|------|" +:+ LF +:+ kline_rows
  else EmptyString.

(** [_generate_fallback_analysis]; [now] is
    [datetime.now().strftime("%Y年%m月%d日 %H:%M")]. *)
Definition _generate_fallback_analysis (now : string) (stock_data : quote)
    (news_list : list NewsItem) (kline_data : list KlinePoint) : string :=
  let price := stock_get stock_data "current_price" in
  let change := stock_get stock_data "change" in
  let change_pct := stock_get stock_data "change_percent" in
  let trend_text := trend_of kline_data in
  let news_section := news_section_of news_list in
  let kline_detail := kline_detail_of kline_data in
  "# 🏦 腾讯控股（00700.HK）AI分析报告

> 📅 分析时间："
  +:+ now
  +:+ "

---

## 1. 📊 市场概览

腾讯控股（00700.HK）当前报价 **"
  +:+ render price
  +:+ " HKD**，涨跌额 "
  +:+ render change
  +:+ "，涨跌幅 "
  +:+ render change_pct
  +:+ "%。

| 指标 | 数值 |
|------|------|
| 当前价格 | "
  +:+ render price
  +:+ " HKD |
| 今日开盘 | "
  +:+ render (stock_get stock_data "open")
  +:+ " |
| 最高价 | "
  +:+ render (stock_get stock_data "high")
  +:+ " |
| 最低价 | "
  +:+ render (stock_get stock_data "low")
  +:+ " |
| 昨日收盘 | "
  +:+ render (stock_get stock_data "prev_close")
  +:+ " |
| 成交量 | "
  +:+ render (stock_get stock_data "volume")
  +:+ " |
| 成交额 | "
  +:+ render (stock_get stock_data "turnover")
  +:+ " |
| 市盈率(PE) | "
  +:+ render (stock_get stock_data "pe_ratio")
  +:+ " |
| 总市值 | "
  +:+ render (stock_get stock_data "market_cap")
  +:+ " |
| 52周最高 | "
  +:+ render (stock_get stock_data "52w_high")
  +:+ " |
| 52周最低 | "
  +:+ render (stock_get stock_data "52w_low")
  +:+ " |

---

## 2. 📈 技术面分析

"
  +:+ (if String.eqb trend_text EmptyString then "暂无足够的K线数据进行技术分析。" else trend_text)
  +:+ "

"
  +:+ kline_detail
  +:+ "

**技术指标解读：**
- 关注成交量变化，放量上涨为积极信号
- 关注关键支撑位与阻力位的突破情况
- 建议结合MACD、RSI等技术指标综合判断

---

## 3. 📰 消息面分析

"
  +:+ news_section
  +:+ "

---

## 4. 🏢 基本面分析

腾讯控股作为中国最大的互联网公司之一，业务涵盖：
- **游戏业务**：全球领先的游戏发行商，持续贡献核心收入
- **社交平台**：微信/WeChat月活超13亿，具备强大的生态壁垒
- **金融科技**：微信支付、理财通等金融科技服务持续增长
- **云服务**：腾讯云在国内市场份额稳步提升
- **投资生态**：持有众多优质公司股权，投资回报可观

当前市盈率为 "
  +:+ render (stock_get stock_data "pe_ratio")
  +:+ "，投资者可参考历史估值中枢评估当前估值水平。

---

## 5. ⚠️ 风险提示

1. **政策监管风险**：互联网行业政策持续演变，需关注监管动态
2. **宏观经济风险**：全球经济不确定性可能影响业务增长
3. **行业竞争风险**：短视频、电商等领域竞争加剧
4. **地缘政治风险**：中美关系变化可能影响港股市场情绪
5. **汇率风险**：港币兑人民币汇率波动影响实际收益

---

## 6. 💡 操作建议

| 策略 | 建议 |
|------|------|
| **短期（1-2周）** | 关注技术面支撑/压力位，轻仓灵活操作 |
| **中期（1-3月）** | 关注财报发布和业务数据，逢低布局 |
| **长期（6月以上）** | 腾讯基本面优质，适合长期价值投资 |

---

> ⚠️ **免责声明**：以上分析由AI生成，仅供参考，不构成任何投资建议。投资有风险，入市需谨慎。请投资者根据自身风险承受能力做出独立判断。
".

(* ===================================================================== *)
(** ** Daily rating (app.py 721-888) *)
(* ===================================================================== *)

Definition valid_ratings : list string :=
  ["强烈推荐"; "推荐"; "中性"; "谨慎"; "回避"].

Definition default_factors : json :=
  JObj [("technical", JStr "--"); ("fundamental", JStr "--");
        ("sentiment", JStr "--")].

(** [x in valid_ratings] *)
Definition is_valid_rating (v : json) : bool :=
  existsb (json_eq_str v) valid_ratings.

(** The first [part] of [msg["parts"]] that is a dict with a truthy
    "text" (lines 831-834); iterating a dict or a str visits no dict. *)
Fixpoint first_text_part (parts : list json) : option json :=
  match parts with
  | [] => None
  | JObj kv :: rest =>
      if json_truthy (default JNull (dict_get "text" kv))
      then dict_get "text" kv
      else first_text_part rest
  | _ :: rest => first_text_part rest
  end.

(** Lines 827-835: the text of the completion. *)
Definition extract_content (body : json) : res string :=
  match body with
  | JObj _ =>
      choices ← py_get body "choices" (JArr [JObj []]);
      first ← py_index choices 0;
      msg ← py_get first "message" (JObj []);
      content0 ← py_get msg "content" JNull;
      let content := if json_truthy content0 then content0 else JStr EmptyString in
      has_parts ← (if json_truthy content then Ok false else py_in "parts" msg);
      content ←
        (if (has_parts : bool) then
           parts ← py_getitem msg "parts";
           match parts with
           | JArr l => Ok (default content (first_text_part l))
           | JObj _ | JStr _ => Ok content
           | _ => Raise TypeError
           end
         else Ok content);
      match content with
      | JStr s => Ok (str_strip s)
      | _ => Raise AttributeError
      end
  | _ => Raise AttributeError
  end.

(** [re.search(r"```(?:json)?\s*\n?(.*?)```", cleaned, re.DOTALL)]: group 1
    of the leftmost match, if any. After the opening fence the optional
    "json" and the white space are taken greedily; the group runs to the
    next fence. *)
Definition fence_inner (cleaned : string) : option string :=
  match find_sub "```" cleaned with
  | None => None
  | Some (_, rest) =>
      let rest := if startswith "json" rest then drop_bytes 4 rest else rest in
      match find_sub "```" (str_lstrip rest) with
      | Some (inner, _) => Some inner
      | None => None
      end
  end.

(** Lines 846-853. *)
Definition clean_result (result_text : string) : string :=
  let cleaned :=
    if str_contains "```" result_text
    then default result_text (fence_inner result_text)
    else result_text in
  str_strip cleaned.

(** Lines 857-870 on the decoded [rating_data]. *)
Definition validate_rating (today : string) (rating_data : json) : res json :=
  r ← py_get rating_data "rating" JNull;
  match rating_data with
  | JObj kv =>
      let kv := if is_valid_rating r then kv else dict_set "rating" (JStr "中性") kv in
      score ← py_int (default (JInt 50) (dict_get "score" kv));
      let kv := dict_set "score" (JInt (Z.max 0 (Z.min 100 score))) kv in
      let kv := dict_set "date" (JStr today) kv in
      let kv := match dict_get "factors" kv with
                | Some _ => kv
                | None => dict_set "factors" default_factors kv
                end in
      Ok (JObj kv)
  | _ => Raise AttributeError
  end.

(** The answer of the completion endpoint: the status and the body text, or
    the exception the HTTP client raised. *)
Definition llm_answer : Type := res (Z * string).

(** Lines 801-870: everything inside the [try]. *)
Definition rating_steps (today : string) (answer : llm_answer) : res json :=
  '(status, text) ← answer;
  result_text ←
    (if status =? 200 then
       body ← or_raise JSONDecodeError (json_loads text);
       extract_content body
     else Raise (PlainException ("API HTTP " +:+ pretty status)));
  if String.eqb result_text EmptyString
  then Raise (PlainException "AI返回内容为空")
  else
    rating_data ← or_raise JSONDecodeError (json_loads (clean_result result_text));
    validate_rating today rating_data.

Definition no_key_rating (today : string) : json :=
  JObj [("date", JStr today); ("rating", JStr "中性"); ("score", JInt 50);
        ("summary", JStr "未配置 AI 大模型 API Key，无法生成智能评级。请在 .env 中配置 LLM_API_KEY 后重试。");
        ("factors", JObj [("technical", JStr "无法分析");
                          ("fundamental", JStr "无法分析");
                          ("sentiment", JStr "无法分析")])].

Definition failure_rating (today : string) : json :=
  JObj [("date", JStr today); ("rating", JStr "中性"); ("score", JInt 50);
        ("summary", JStr "AI 评级生成失败，请稍后重试。");
        ("factors", default_factors)].

(** One call of the rating endpoint: the calendar date the clock shows,
    the configured key, the upstream sides of the three fetches, and the
    completion endpoint's answer should it be asked. The prompt built from
    the fetched data (lines 753-799) only shapes that answer, which is an
    input here. *)
Record rating_env : Type := mkRatingEnv {
  r_today : string;
  r_api_key : string;
  r_quote : quote_env;
  r_news : news_env;
  r_kline : kline_env;
  r_answer : llm_answer
}.

(** [get_rating]: the "data" of the reply and the state it leaves. *)
Definition get_rating (e : rating_env) (w : world) : json * world :=
  let today := r_today e in
  match w_rating w !! today with
  | Some memo => (memo, w)
  | None =>
      let '(stock_data, w) := fetch_stock_data (r_quote e) w in
      let '(news_list, w) := fetch_news (r_news e) w in
      let '(kline_data, w) := fetch_kline_data "day" 30 (r_kline e) w in
      if String.eqb (r_api_key e) EmptyString then
        let fallback := no_key_rating today in
        (fallback, with_rating (<[today := fallback]> (w_rating w)) w)
      else
        let w := logged PostRatingCompletion w in
        match rating_steps today (r_answer e) with
        | Ok rating_data =>
            (rating_data, with_rating (<[today := rating_data]> (w_rating w)) w)
        | Raise _ => (failure_rating today, w)
        end
  end.

(** [refresh_data]'s first two statements. *)
Definition clear_all (w : world) : world :=
  mkWorld ∅ ∅ (w_log w).

(* ===================================================================== *)
(** ** Analysis stream on a 200 answer (app.py 507-521) *)
(* ===================================================================== *)

(** [stream_ai_analysis] once the upstream has answered with status 200:
    an exception that leaves the loop reaches [except Exception] (line
    519), which yields the templated report. *)
Definition stream_ai_analysis_success (now : string) (stock_data : quote)
    (news_list : list NewsItem) (kline_data : list KlinePoint)
    (lines : list string) : list json :=
  let '(out, fin) := consume_lines lines in
  match fin with
  | Escaped _ =>
      out ++ [JStr (_generate_fallback_analysis now stock_data news_list kline_data)]
  | _ => out
  end.


(* ===================================================================== *)
(** ** Vocabulary of the statements *)
(* ===================================================================== *)

(** An operation that leaves [key]'s entry alone: a write to another key. *)
Definition keeps (key : string) (op : cache_op) : Prop :=
  match op with
  | OpSet _ k _ => k ≠ key
  | OpClear => False
  end.

(** What a K-line fetch does when the lookup serves nothing. *)
Definition kline_refetch (period : string) (count : Z)
    (e : kline_env) (w : world) : value * world :=
  let rows := VKline (k_feed e (normalize_period period) (normalize_count count)) in
  (rows,
   mkWorld (<[kline_cache_key period count := (at_store (k_clock e), rows)]> (w_cache w))
           (w_rating w)
           (w_log w ++ [GetKline (normalize_period period) (normalize_count count)])).

Definition news_refetch (e : news_env) (w : world) : value * world :=
  let result := VNews (rank_news (nw_gathered e)) in
  (result,
   mkWorld (<["news_data" := (at_store (nw_clock e), result)]> (w_cache w))
           (w_rating w)
           (w_log w ++ [GetNewsSources])).

Definition price_fields_left_blank : list string :=
  ["change"; "change_percent"; "open"; "high"; "low"; "prev_close";
   "volume"; "turnover"].

(** Every key of [q] is still a key of [q']. *)
Definition keeps_fields (q q' : quote) : Prop :=
  forall k, is_Some (q !! k) -> is_Some (q' !! k).

Definition base_fields : list string :=
  ["name"; "code"; "current_price"; "change"; "change_percent"; "open";
   "high"; "low"; "prev_close"; "volume"; "turnover"; "market_cap";
   "pe_ratio"; "52w_high"; "52w_low"; "updated_at"].

Definition is_stock (x : NewsItem) : bool := String.eqb (n_tag x) "stock".
Definition not_stock (x : NewsItem) : bool := negb (is_stock x).

(** The ranking in the specification's words: the stock-tagged items in
    their order, then the others in theirs. *)
Definition stock_first (l : list NewsItem) : list NewsItem :=
  List.filter is_stock l ++ List.filter not_stock l.

(** First-seen item with a given title. *)
Definition first_titled (t : string) (l : list NewsItem) : option NewsItem :=
  List.find (fun n => String.eqb (n_title n) t) l.

Definition is_llm_call (rq : request) : bool :=
  match rq with
  | PostRatingCompletion => true
  | _ => false
  end.

(** How many times the completion endpoint has been called. *)
Definition llm_calls (w : world) : nat :=
  length (List.filter is_llm_call (w_log w)).

(** The state after the three fetches of lines 731-735. *)
Definition gathered (e : rating_env) (w : world) : world :=
  snd (fetch_kline_data "day" 30 (r_kline e)
         (snd (fetch_news (r_news e) (snd (fetch_stock_data (r_quote e) w))))).

(** The label kept by the validation: the model's own when it is one of
    the five, 中性 otherwise. *)
Definition repaired_label (kv : list (string * json)) : json :=
  let r := default JNull (dict_get "rating" kv) in
  if is_valid_rating r then r else JStr "中性".

Definition clamp_score (score : Z) : Z := Z.max 0 (Z.min 100 score).

(** A rating as the schema wants it: one of the five labels, an integer
    score within 0..100, today's date, and the factors present. *)
Definition well_formed_rating (today : string) (r : json) : Prop :=
  exists kv,
    r = JObj kv /\
    is_valid_rating (default JNull (dict_get "rating" kv)) = true /\
    (exists s, dict_get "score" kv = Some (JInt s) /\ 0 <= s <= 100) /\
    dict_get "date" kv = Some (JStr today) /\
    is_Some (dict_get "factors" kv).

(** The object [{"rating": "buy-buy", "score": 150}]. *)
Definition buy_buy_150 : list (string * json) :=
  [("rating", JStr "buy-buy"); ("score", JInt 150)].


(** A chunk whose [delta] is null. *)
Definition null_delta_chunk : json :=
  JObj [("choices", JArr [JObj [("delta", JNull)]])].

(* ===================================================================== *)
(** ** Sample data for the concrete runs *)
(* ===================================================================== *)

(** [s] between two double quotes. *)
Definition quoted (s : string) : string :=
  String dquote (s +:+ String dquote EmptyString).

(** A decoder given by the finite table of the texts it accepts. *)
Definition table_loads (tbl : list (string * json)) (text : string) : option json :=
  dict_get text tbl.

Definition no_int_of_str (s : string) : option Z := None.

(** Renderers that print a placeholder. *)
Definition mute_value (v : json) : string := "?".
Definition mute_float (f : float) : string := "?".

Definition class_name (e : exn) : string :=
  match e with
  | KeyError => "KeyError"
  | IndexError => "IndexError"
  | TypeError => "TypeError"
  | AttributeError => "AttributeError"
  | ValueError => "ValueError"
  | OverflowError => "OverflowError"
  | JSONDecodeError => "JSONDecodeError"
  | TransportError => "TransportError"
  | PlainException msg => msg
  end.

Definition sample_today : string := "2026-01-05".

Definition sample_world : world := mkWorld ∅ ∅ [].

(** Upstreams that give nothing. *)
Definition silent_quotes : quote_env :=
  mkQuoteEnv (mkReadings 0 1) "2026-01-05 09:30:00" "2026-01-05 09:30:01" None None.
Definition silent_news : news_env := mkNewsEnv (mkReadings 0 1) [].
Definition silent_klines : kline_env := mkKlineEnv (mkReadings 0 1) (fun _ _ => []).

(** The text [{"rating":<label>,"score":<score>}]. *)
Definition rating_text (label score : string) : string :=
  "{" +:+ quoted "rating" +:+ ":" +:+ quoted label +:+ ","
  +:+ quoted "score" +:+ ":" +:+ score +:+ "}".

(** The decoded body of a completion whose message has the given content. *)
Definition completion_body (content : string) : json :=
  JObj [("choices", JArr [JObj [("message", JObj [("content", JStr content)])]])].

(** The body text [{"choices":[{"message":{"content":<content>}}]}], the
    quotes of the content escaped. *)
Fixpoint escape_quotes (s : string) : string :=
  match s with
  | EmptyString => EmptyString
  | String a rest =>
      if Ascii.eqb a dquote then String "\" (String dquote (escape_quotes rest))
      else String a (escape_quotes rest)
  end.
Definition completion_text (content : string) : string :=
  "{" +:+ quoted "choices" +:+ ":[{" +:+ quoted "message" +:+ ":{"
  +:+ quoted "content" +:+ ":" +:+ quoted (escape_quotes content) +:+ "}}]}".

(** A decoder that knows three completions and the texts they carry. *)
Definition sample_loads : string -> option json :=
  table_loads
    [(completion_text (rating_text "推荐" "72"),
      completion_body (rating_text "推荐" "72"));
     (completion_text (rating_text "回避" "12"),
      completion_body (rating_text "回避" "12"));
     (completion_text (rating_text "buy-buy" "150"),
      completion_body (rating_text "buy-buy" "150"));
     (rating_text "推荐" "72", JObj [("rating", JStr "推荐"); ("score", JInt 72)]);
     (rating_text "回避" "12", JObj [("rating", JStr "回避"); ("score", JInt 12)]);
     (rating_text "buy-buy" "150", JObj [("rating", JStr "buy-buy"); ("score", JInt 150)])].

Definition rating_call (answer : llm_answer) : rating_env :=
  mkRatingEnv sample_today "sk-sample" silent_quotes silent_news silent_klines answer.

Definition first_call : rating_env :=
  rating_call (Ok (200, completion_text (rating_text "推荐" "72"))).
Definition second_call : rating_env :=
  rating_call (Ok (200, completion_text (rating_text "回避" "12"))).
Definition buy_buy_call : rating_env :=
  rating_call (Ok (200, completion_text (rating_text "buy-buy" "150"))).
Definition failing_call : rating_env := rating_call (Raise TransportError).

(** Twenty-six stock-tagged items with distinct titles, then two
    otherwise-tagged items sharing one title. *)
Definition plain_item (t g src : string) : NewsItem :=
  mkNews t EmptyString src EmptyString EmptyString g None.
Definition crowded_news : list NewsItem :=
  map (fun i => plain_item ("stock-" +:+ pretty i) "stock" "新浪财经") (seq 0 26)
  ++ [plain_item "twice" "general" "新浪财经"; plain_item "twice" "general" "Reuters"].

(** A cached day K-line list of one candle, stored under the day key. *)
Definition one_candle : KlinePoint :=
  mkKline (JStr "2026-01-02") 500%float 505%float 506%float 499%float (JFloat 1000%float).
Definition later_klines : kline_env :=
  mkKlineEnv (mkReadings 10 11) (fun _ _ => []).

(** A secondary-feed answer whose [qt] has 46 entries. *)
Definition sample_qt : list json :=
  map (fun i => JStr (if Nat.eqb i 3 then "512.000"
                      else if Nat.eqb i 39 then "21.52"
                      else if Nat.eqb i 45 then "46630.12"
                      else "0")) (seq 0 46).
Definition sample_tencent_answer : json :=
  JObj [("data", JObj [("hk00700", JObj [("qt", JObj [("hk00700", JArr sample_qt)])])])].

(** The payloads [{"choices":[{"delta":null}]}] and
    [{"choices":[{"delta":{"content":"hello"}}]}], and a decoder for them. *)
Definition null_delta_payload : string :=
  "{" +:+ quoted "choices" +:+ ":[{" +:+ quoted "delta" +:+ ":null}]}".
Definition hello_payload : string :=
  "{" +:+ quoted "choices" +:+ ":[{" +:+ quoted "delta" +:+ ":{"
  +:+ quoted "content" +:+ ":" +:+ quoted "hello" +:+ "}}]}".
Definition stream_loads : string -> option json :=
  table_loads
    [(null_delta_payload, JObj [("choices", JArr [JObj [("delta", JNull)]])]);
     (hello_payload,
      JObj [("choices", JArr [JObj [("delta", JObj [("content", JStr "hello")])]])])].


(* ===================================================================== *)
(** ** Refresh endpoint and sequences of calls (app.py 661-715) *)
(* ===================================================================== *)

(** [len(v)] of a cached object. *)
Definition value_len (v : value) : nat :=
  match v with
  | VQuote q => size q
  | VKline l => length l
  | VNews l => length l
  end.

(** [refresh_data]: the "data" of the reply (stock, news, kline_count) and
    the state it leaves. *)
Definition refresh_data (qe : quote_env) (ne : news_env) (ke : kline_env)
    (w : world) : (value * value * nat) * world :=
  let w := clear_all w in
  let '(stock_data, w) := fetch_stock_data qe w in
  let '(news_list, w) := fetch_news ne w in
  let '(kline_data, w) := fetch_kline_data "day" 60 ke w in
  ((stock_data, news_list, value_len kline_data), w).

(** One request to the data endpoints, with the upstream side it meets:
    [get_stock], [get_kline], [get_news], [get_rating], [refresh_data]. *)
Inductive call : Type :=
| CallStock (e : quote_env)
| CallKline (period : string) (count : Z) (e : kline_env)
| CallNews (e : news_env)
| CallRating (e : rating_env)
| CallRefresh (qe : quote_env) (ne : news_env) (ke : kline_env).

Definition run_call (w : world) (c : call) : world :=
  match c with
  | CallStock e => snd (fetch_stock_data e w)
  | CallKline period count e => snd (fetch_kline_data period count e w)
  | CallNews e => snd (fetch_news e w)
  | CallRating e => snd (get_rating e w)
  | CallRefresh qe ne ke => snd (refresh_data qe ne ke w)
  end.

Definition run_calls (cs : list call) (w : world) : world :=
  fold_left run_call cs w.

(** The state at process start: both dicts empty. *)
Definition initial_world : world := mkWorld ∅ ∅ [].

(** A list as the news pipeline leaves it. *)
Definition ranked (l : list NewsItem) : Prop :=
  (length l <= 25)%nat /\
  NoDup (map n_title l) /\
  (forall (i j : nat) x y,
      l !! i = Some x -> l !! j = Some y ->
      n_tag x ≠ "stock" -> n_tag y = "stock" -> (j < i)%nat).

(** Each key of [_cache] holds the kind of object its fetcher stores. *)
Definition cache_shaped (c : cache) : Prop :=
  (forall ts v, c !! "stock_data" = Some (ts, v) ->
     exists q, v = VQuote q /\ Forall (fun k => is_Some (q !! k)) base_fields) /\
  (forall ts v, c !! "news_data" = Some (ts, v) ->
     exists l, v = VNews l /\ ranked l) /\
  (forall period count ts v, c !! kline_cache_key period count = Some (ts, v) ->
     exists l, v = VKline l).

(** Each memo entry is a well-formed rating for its date. *)
Definition memo_shaped (m : gmap string json) : Prop :=
  forall d r, m !! d = Some r -> well_formed_rating d r.

(** The comma-separated fields of the primary feed's text. *)
Definition sina_fields (text : string) : list string :=
  str_split "," (default EmptyString (str_split dquote text !! 1%nat)).

(** A [qt] the secondary feed's assignments can run on: an array, or a
    string, of more than 45 entries. *)
Definition usable_qt (qt : json) : bool :=
  match qt with
  | JArr l => 45 <? Z.of_nat (length l)
  | JStr s => 45 <? str_len s
  | _ => false
  end.

(** The quote fields the templated report prints. *)
Definition report_fields : list string :=
  ["current_price"; "change"; "change_percent"; "open"; "high"; "low";
   "prev_close"; "volume"; "turnover"; "pe_ratio"; "market_cap";
   "52w_high"; "52w_low"].

(** Two K-line lists the report cannot tell apart: both shorter than 5;
    both of 5 to 19 candles with the same last 5; both of 20 or more with
    the same last 20. *)
Definition same_candle_view (k k' : list KlinePoint) : Prop :=
  ((length k < 5)%nat /\ (length k' < 5)%nat) \/
  ((5 <= length k < 20)%nat /\ (5 <= length k' < 20)%nat /\
   last_n 5 k = last_n 5 k') \/
  ((20 <= length k)%nat /\ (20 <= length k')%nat /\ last_n 20 k = last_n 20 k').

(** A body line that ends the loop: [data: ] followed by the terminator. *)
Definition is_terminator (line : string) : Prop :=
  startswith "data: " line = true /\ str_strip (drop_bytes 6 line) = "[DONE]".

(** A body line that carries the fragment [c]. *)
Definition content_line (line : string) (c : json) : Prop :=
  startswith "data: " line = true /\
  str_strip (drop_bytes 6 line) ≠ "[DONE]" /\
  chunk_fragment (drop_bytes 6 line) = Ok (Some c).



(** The message dict of a completion body: the "message" of the first
    element of "choices", when the body has that shape. *)
Definition message_of (body : json) : option (list (string * json)) :=
  match body with
  | JObj kvb =>
      match dict_get "choices" kvb with
      | Some (JArr (JObj first :: _)) =>
          match dict_get "message" first with
          | Some (JObj msg) => Some msg
          | _ => None
          end
      | _ => None
      end
  | _ => None
  end.

(** Decoded completion bodies without a usable first choice: not an
    object, or an object whose "choices" is missing or an empty list. *)
Definition odd_body (body : json) : bool :=
  match body with
  | JObj kvb =>
      match dict_get "choices" kvb with
      | None => true
      | Some (JArr []) => true
      | Some _ => false
      end
  | _ => true
  end.

(** Decoded rating texts the validation cannot use: not an object, or an
    object whose score is null, a list or an object. *)
Definition unusable_rating (d : json) : bool :=
  match d with
  | JObj kv =>
      match dict_get "score" kv with
      | Some JNull | Some (JArr _) | Some (JObj _) => true
      | _ => false
      end
  | _ => true
  end.

(** A body line whose chunk raises an exception the inner handler does
    not list. *)
Definition escaping_line (line : string) (e : exn) : Prop :=
  startswith "data: " line = true /\
  str_strip (drop_bytes 6 line) ≠ "[DONE]" /\
  chunk_fragment (drop_bytes 6 line) = Raise e /\
  skipped e = false.

(** The requests that fetch a list: [get_kline] and [get_news]. *)
Definition list_call (c : call) : bool :=
  match c with
  | CallKline _ _ _ | CallNews _ => true
  | _ => false
  end.

(** *** Sample data for the further runs *)

(** A later reading of the clock, the upstreams silent. *)
Definition later_quotes : quote_env :=
  mkQuoteEnv (mkReadings 30 31) "2026-01-05 09:30:30" "2026-01-05 09:30:31" None None.
Definition later_news : news_env := mkNewsEnv (mkReadings 30 31) [].

(** A primary-feed answer of nineteen fields. *)
Definition sample_sina_text : string :=
  "var hq_str_rt_hk00700="
  +:+ quoted ("TENCENT,腾讯控股,510.000,508.000,515.000,505.000,512.500,4.500,0.886,"
              +:+ "512.400,512.600,9216000000,18000000,0.000,0.000,700.000,400.000,"
              +:+ "2026/01/05,16:08")
  +:+ ";".
Definition both_feeds : quote_env :=
  mkQuoteEnv (mkReadings 0 1) "2026-01-05 09:30:00" "2026-01-05 09:30:01"
             (Some sample_sina_text) (Some sample_tencent_answer).

(** Feeds that answer with nothing usable: a page without a double quote,
    and a [qt] of three entries. *)
Definition short_tencent_answer : json :=
  JObj [("data", JObj [("hk00700", JObj [("qt", JObj [("hk00700",
          JArr [JStr "1"; JStr "腾讯控股"; JStr "00700"])])])])].
Definition broken_feeds : quote_env :=
  mkQuoteEnv (mkReadings 0 1) "2026-01-05 09:30:00" "2026-01-05 09:30:01"
             (Some "<html>busy</html>") (Some short_tencent_answer).

(** A stock item between two general ones. *)
Definition mixed_news : list NewsItem :=
  [plain_item "a" "general" "Reuters"; plain_item "b" "stock" "新浪财经";
   plain_item "c" "general" "Reuters"].
Definition one_item_news : news_env :=
  mkNewsEnv (mkReadings 0 1) [plain_item "b" "stock" "新浪财经"].

(** A K-line upstream that answers one candle. *)
Definition one_day_klines : kline_env :=
  mkKlineEnv (mkReadings 0 1) (fun _ _ => [one_candle]).

(** A completion whose body is the JSON list [[]]. *)
Definition odd_loads : string -> option json := table_loads [("[]", JArr [])].
Definition odd_call : rating_env := rating_call (Ok (200, "[]")).

(** A completion rating 推荐 with a null score. *)
Definition null_score_object : list (string * json) :=
  [("rating", JStr "推荐"); ("score", JNull)].
Definition null_score_loads : string -> option json :=
  table_loads
    [(completion_text (rating_text "推荐" "null"),
      completion_body (rating_text "推荐" "null"));
     (rating_text "推荐" "null", JObj null_score_object)].
Definition null_score_call : rating_env :=
  rating_call (Ok (200, completion_text (rating_text "推荐" "null"))).

(** A completion that carries a summary besides the label and the score. *)
Definition summary_text : string :=
  "{" +:+ quoted "rating" +:+ ":" +:+ quoted "推荐" +:+ ","
  +:+ quoted "score" +:+ ":72," +:+ quoted "summary" +:+ ":" +:+ quoted "ok" +:+ "}".
Definition summary_object : list (string * json) :=
  [("rating", JStr "推荐"); ("score", JInt 72); ("summary", JStr "ok")].
Definition summary_loads : string -> option json :=
  table_loads
    [(completion_text summary_text, completion_body summary_text);
     (summary_text, JObj summary_object)].
Definition summary_call : rating_env :=
  rating_call (Ok (200, completion_text summary_text)).

(** A call without a key whose endpoint would answer. *)
Definition keyless_call : rating_env :=
  mkRatingEnv sample_today EmptyString silent_quotes silent_news silent_klines
              (Ok (200, completion_text (rating_text "推荐" "72"))).
(* ===================================================================== *)
(** * Properties *)
(* ===================================================================== *)

(** ** TTL cache *)

Lemma get_cache_lookup now key (c : cache) :
  _get_cache now key c =
  match c !! key with
  | Some (ts, data) => if Qlt_le_dec (now - ts) CACHE_TTL then Some data else None
  | None => None
  end.
Proof. reflexivity. Qed.

Lemma get_cache_fresh now key ts v (c : cache) :
  c !! key = Some (ts, v) -> (now - ts < CACHE_TTL)%Q ->
  _get_cache now key c = Some v.
Proof.
  intros Hc Hlt. rewrite get_cache_lookup, Hc.
  destruct (Qlt_le_dec (now - ts) CACHE_TTL) as [_|Hle]; [reflexivity|].
  exfalso. exact (Qlt_not_le _ _ Hlt Hle).
Qed.

Lemma get_cache_stale now key ts v (c : cache) :
  c !! key = Some (ts, v) -> (CACHE_TTL <= now - ts)%Q ->
  _get_cache now key c = None.
Proof.
  intros Hc Hle. rewrite get_cache_lookup, Hc.
  destruct (Qlt_le_dec (now - ts) CACHE_TTL) as [Hlt|_]; [|reflexivity].
  exfalso. exact (Qlt_not_le _ _ Hlt Hle).
Qed.

Lemma get_cache_absent now key (c : cache) :
  c !! key = None -> _get_cache now key c = None.
Proof. intros Hc. rewrite get_cache_lookup, Hc. reflexivity. Qed.

Lemma get_cache_some now key v (c : cache) :
  _get_cache now key c = Some v ->
  exists ts, c !! key = Some (ts, v) /\ (now - ts < CACHE_TTL)%Q.
Proof.
  rewrite get_cache_lookup. destruct (c !! key) as [[ts d]|]; [|discriminate].
  destruct (Qlt_le_dec (now - ts) CACHE_TTL) as [Hlt|_]; [|discriminate].
  intros [= ->]. exists ts. split; [reflexivity|exact Hlt].
Qed.

Lemma eqb_false_ne (a b : string) : String.eqb a b = false -> a ≠ b.
Proof. intros H. apply String.eqb_neq. exact H. Qed.

Lemma run_ops_unset key ops (c : cache) :
  Forall (fun op => sets_key key op = false) ops ->
  c !! key = None -> run_ops ops c !! key = None.
Proof.
  intros Hops. revert c. induction Hops as [|op ops Hop _ IH]; intros c Hc.
  - exact Hc.
  - simpl. apply IH. destruct op as [t k d|]; simpl in *.
    + unfold _set_cache. rewrite lookup_insert_ne; [exact Hc|].
      apply eqb_false_ne. exact Hop.
    + apply lookup_empty.
Qed.

Lemma run_ops_keeps key ops (c : cache) :
  Forall (keeps key) ops -> run_ops ops c !! key = c !! key.
Proof.
  intros Hops. revert c. induction Hops as [|op ops Hop _ IH]; intros c.
  - reflexivity.
  - simpl. rewrite IH. destruct op as [t k d|]; simpl in *; [|contradiction].
    unfold _set_cache. apply lookup_insert_ne. exact Hop.
Qed.

(** C4. A key that was never set reads as absent, whatever else was written
    or cleared. After [_set_cache(key, v)] at clock reading [ts], and while
    only other keys are written, a read at reading [now] returns exactly
    [v] when [now - ts < 300] and None once [now - ts >= 300]; the expired
    entry is still in the store (it is not evicted). Whatever a read
    returns was stored less than 300 seconds before it. *)
Theorem ttl_cache_contract (key : string) :
  (forall ops now,
      Forall (fun op => sets_key key op = false) ops ->
      _get_cache now key (run_ops ops ∅) = None) /\
  (forall (c : cache) ts v ops now,
      Forall (keeps key) ops -> (now - ts < CACHE_TTL)%Q ->
      _get_cache now key (run_ops ops (_set_cache ts key v c)) = Some v) /\
  (forall (c : cache) ts v ops now,
      Forall (keeps key) ops -> (CACHE_TTL <= now - ts)%Q ->
      _get_cache now key (run_ops ops (_set_cache ts key v c)) = None /\
      run_ops ops (_set_cache ts key v c) !! key = Some (ts, v)) /\
  (forall (c : cache) now v,
      _get_cache now key c = Some v ->
      exists ts, c !! key = Some (ts, v) /\ (now - ts < CACHE_TTL)%Q) /\
  CACHE_TTL = 300%Q.
Proof.
  repeat split.
  - intros ops now Hops. apply get_cache_absent, run_ops_unset; [exact Hops|].
    apply lookup_empty.
  - intros c ts v ops now Hops Hlt. apply (get_cache_fresh _ _ ts); [|exact Hlt].
    rewrite run_ops_keeps by exact Hops. apply lookup_insert_eq.
  - apply (get_cache_stale _ _ ts v); [|assumption].
    rewrite run_ops_keeps by assumption. apply lookup_insert_eq.
  - rewrite run_ops_keeps by assumption. apply lookup_insert_eq.
  - intros c now v. apply get_cache_some.
Qed.

(** ** Falsy cached values *)

Lemma falsy_entry_not_hit now key ts v (c : cache) :
  c !! key = Some (ts, v) -> truthy v = false ->
  cache_hit (_get_cache now key c) = false.
Proof.
  intros Hc Hv. rewrite get_cache_lookup, Hc.
  destruct (Qlt_le_dec (now - ts) CACHE_TTL); simpl; [exact Hv|reflexivity].
Qed.

Lemma deleted_entry_not_hit now key (c : cache) :
  cache_hit (_get_cache now key (delete key c)) = false.
Proof. rewrite get_cache_absent; [reflexivity|apply lookup_delete_eq]. Qed.

Lemma fetch_kline_unserved period count e w :
  cache_hit (_get_cache (at_lookup (k_clock e)) (kline_cache_key period count)
                        (w_cache w)) = false ->
  fetch_kline_data period count e w = kline_refetch period count e w.
Proof.
  intros Hmiss. unfold fetch_kline_data, kline_refetch.
  destruct (_get_cache _ _ _) as [v|]; [|reflexivity].
  simpl in Hmiss. rewrite Hmiss. reflexivity.
Qed.

Lemma fetch_kline_served period count e w v :
  _get_cache (at_lookup (k_clock e)) (kline_cache_key period count) (w_cache w) = Some v ->
  truthy v = true ->
  fetch_kline_data period count e w = (v, w).
Proof.
  intros Hget Hv. unfold fetch_kline_data. rewrite Hget, Hv. reflexivity.
Qed.

Lemma fetch_news_unserved e w :
  cache_hit (_get_cache (at_lookup (nw_clock e)) "news_data" (w_cache w)) = false ->
  fetch_news e w = news_refetch e w.
Proof.
  intros Hmiss. unfold fetch_news, news_refetch.
  destruct (_get_cache _ _ _) as [v|]; [|reflexivity].
  simpl in Hmiss. rewrite Hmiss. reflexivity.
Qed.

(** C10. When the cache holds an empty (falsy) value under the key of a
    K-line or news fetch, however recently it was stored, the next fetch does
    not return it: it issues the upstream request again, returns and stores
    what that request gives, exactly as it does with the entry deleted. In
    particular this is the state a fetch whose upstream gave nothing leaves
    behind. *)
Theorem empty_cached_result_is_refetched :
  (forall period count e w ts v,
      w_cache w !! kline_cache_key period count = Some (ts, v) ->
      truthy v = false ->
      fetch_kline_data period count e w = kline_refetch period count e w /\
      fetch_kline_data period count e w =
      fetch_kline_data period count e
        (with_cache (delete (kline_cache_key period count) (w_cache w)) w)) /\
  (forall e w ts v,
      w_cache w !! "news_data" = Some (ts, v) ->
      truthy v = false ->
      fetch_news e w = news_refetch e w /\
      fetch_news e w =
      fetch_news e (with_cache (delete "news_data" (w_cache w)) w)) /\
  (forall period count e0 e w,
      k_feed e0 (normalize_period period) (normalize_count count) = [] ->
      let w1 := snd (kline_refetch period count e0 w) in
      fetch_kline_data period count e w1 = kline_refetch period count e w1) /\
  (forall e0 e w,
      rank_news (nw_gathered e0) = [] ->
      let w1 := snd (news_refetch e0 w) in
      fetch_news e w1 = news_refetch e w1).
Proof.
  split; [|split; [|split]].
  - intros period count e w ts v Hc Hv.
    assert (Hmiss := falsy_entry_not_hit (at_lookup (k_clock e)) _ _ _ _ Hc Hv).
    split; [apply fetch_kline_unserved; exact Hmiss|].
    rewrite (fetch_kline_unserved _ _ _ w) by exact Hmiss.
    rewrite fetch_kline_unserved by apply deleted_entry_not_hit.
    unfold kline_refetch, with_cache; simpl. rewrite insert_delete_eq. reflexivity.
  - intros e w ts v Hc Hv.
    assert (Hmiss := falsy_entry_not_hit (at_lookup (nw_clock e)) _ _ _ _ Hc Hv).
    split; [apply fetch_news_unserved; exact Hmiss|].
    rewrite (fetch_news_unserved _ w) by exact Hmiss.
    rewrite fetch_news_unserved by apply deleted_entry_not_hit.
    unfold news_refetch, with_cache; simpl. rewrite insert_delete_eq. reflexivity.
  - intros period count e0 e w Hempty w1. apply fetch_kline_unserved.
    apply (falsy_entry_not_hit _ _ (at_store (k_clock e0)) (VKline [])); [|reflexivity].
    unfold w1, kline_refetch; simpl. rewrite Hempty. apply lookup_insert_eq.
  - intros e0 e w Hempty w1. apply fetch_news_unserved.
    apply (falsy_entry_not_hit _ _ (at_store (nw_clock e0)) (VNews [])); [|reflexivity].
    unfold w1, news_refetch; simpl. rewrite Hempty. apply lookup_insert_eq.
Qed.

(** ** K-line parameters *)





(** ** Quote merge *)

Lemma list_index_nat {A} (l : list A) (i : nat) :
  (i < length l)%nat -> list_index l (Z.of_nat i) = l !! i.
Proof.
  intros Hi. unfold list_index.
  assert (H0 : (0 <=? Z.of_nat i) = true) by (apply Z.leb_le; lia).
  assert (H1 : (Z.of_nat i <? Z.of_nat (length l)) = true) by (apply Z.ltb_lt; lia).
  rewrite H0, H1. simpl. rewrite Nat2Z.id. reflexivity.
Qed.

Lemma py_index_arr l (i : nat) :
  (i < length l)%nat ->
  exists v, l !! i = Some v /\ py_index (JArr l) (Z.of_nat i) = Ok v.
Proof.
  intros Hi. destruct (lookup_lt_is_Some_2 l i Hi) as [v Hv].
  exists v. split; [exact Hv|]. simpl. rewrite list_index_nat, Hv by exact Hi.
  reflexivity.
Qed.

(** On a list, [qt[i] if len(qt) > i else "--"] never raises. *)
Lemma qt_field_arr l (i : nat) :
  exists v, qt_field (JArr l) (Z.of_nat i) = Ok v /\
            ((i < length l)%nat -> l !! i = Some v).
Proof.
  unfold qt_field. simpl.
  destruct (Z.of_nat i <? Z.of_nat (length l)) eqn:Hlt.
  - apply Z.ltb_lt in Hlt. assert (Hi : (i < length l)%nat) by lia.
    destruct (py_index_arr l i Hi) as (v & Hv & Hp).
    exists v. simpl in Hp. rewrite Hp. split; [reflexivity|]. intros _. exact Hv.
  - apply Z.ltb_ge in Hlt. exists sentinel. split; [reflexivity|]. lia.
Qed.


Lemma keeps_fields_refl q : keeps_fields q q.
Proof. intros k Hk. exact Hk. Qed.

Lemma keeps_fields_insert k v q q' :
  keeps_fields q q' -> keeps_fields q (<[k := v]> q').
Proof.
  intros H k' Hk'. apply lookup_insert_is_Some'. right. apply H. exact Hk'.
Qed.

Lemma assign_keeps k r next :
  (forall q, keeps_fields q (fst (next q))) ->
  forall q, keeps_fields q (fst (assign k r next q)).
Proof.
  intros Hnext q. unfold assign. destruct r as [v|e]; simpl.
  - intros k' Hk'. apply Hnext. apply lookup_insert_is_Some'. right. exact Hk'.
  - apply keeps_fields_refl.
Qed.

Lemma qt_assignments_keeps qt q : keeps_fields q (fst (qt_assignments qt q)).
Proof.
  unfold qt_assignments.
  assert (Hrest : forall q0, keeps_fields q0 (fst (
    assign "market_cap" (qt_field qt 45)
    (assign "pe_ratio" (qt_field qt 39)
    (assign "52w_high" (qt_field qt 48)
    (assign "52w_low" (qt_field qt 49)
    (assign "dividend_yield" (qt_field qt 47)
    (assign "pb_ratio" (qt_field qt 51)
    (assign "turnover_rate" (qt_field qt 50)
    (assign "amplitude" (qt_field qt 43)
    (assign "total_shares" (qt_field qt 69)
    (assign "float_shares" (qt_field qt 70)
    (assign "nav_per_share" (qt_field qt 72) finish)))))))))) q0))).
  { repeat (apply assign_keeps). intros q0. apply keeps_fields_refl. }
  destruct (json_eq_str _ _); [apply assign_keeps|]; apply Hrest.
Qed.

Lemma tencent_merge_keeps data q : keeps_fields q (fst (tencent_merge data q)).
Proof.
  unfold tencent_merge.
  destruct (find_qt data) as [[qt|]|e]; simpl; try apply keeps_fields_refl.
  destruct (json_truthy qt); simpl; try apply keeps_fields_refl.
  destruct (py_len qt) as [n|e]; simpl; try apply keeps_fields_refl.
  destruct (45 <? n); simpl; [apply qt_assignments_keeps|apply keeps_fields_refl].
Qed.

Lemma sina_merge_keeps stamp text q : keeps_fields q (sina_merge stamp text q).
Proof.
  unfold sina_merge.
  destruct (str_contains _ _); [|apply keeps_fields_refl].
  destruct (15 <? _)%nat; [|apply keeps_fields_refl].
  repeat apply keeps_fields_insert. apply keeps_fields_refl.
Qed.

Lemma initial_has_base_fields stamp :
  Forall (fun k => is_Some (initial_stock_info stamp !! k)) base_fields.
Proof. repeat constructor; eexists; reflexivity. Qed.

(** Whatever the two feeds do, the record built has every base field. *)
Lemma build_stock_info_total e :
  Forall (fun k => is_Some (build_stock_info e !! k)) base_fields.
Proof.
  eapply Forall_impl; [apply (initial_has_base_fields (q_stamp0 e))|].
  intros k Hk. unfold build_stock_info.
  assert (H1 : is_Some (match q_sina e with
                        | Some text => sina_merge (q_stamp1 e) text (initial_stock_info (q_stamp0 e))
                        | None => initial_stock_info (q_stamp0 e)
                        end !! k)).
  { destruct (q_sina e); [apply sina_merge_keeps|]; exact Hk. }
  destruct (q_tencent e); [apply tencent_merge_keeps|]; exact H1.
Qed.



(** ** News ranking *)

Lemma sort_key_stock x : is_stock x = true -> sort_key x = 0%nat.
Proof. unfold is_stock, sort_key. intros ->. reflexivity. Qed.

Lemma sort_key_other x : is_stock x = false -> sort_key x = 1%nat.
Proof. unfold is_stock, sort_key. intros ->. reflexivity. Qed.

Lemma insert_stock_front x l :
  is_stock x = true -> insert_stable sort_key x l = x :: l.
Proof.
  intros Hx. destruct l as [|y l]; simpl; [reflexivity|].
  rewrite (sort_key_stock x Hx). reflexivity.
Qed.

Lemma insert_other_after_stock x (s g : list NewsItem) :
  is_stock x = false ->
  Forall (fun y => is_stock y = true) s ->
  Forall (fun y => is_stock y = false) g ->
  insert_stable sort_key x (s ++ g) = s ++ x :: g.
Proof.
  intros Hx Hs Hg. induction Hs as [|y s Hy _ IH]; simpl.
  - destruct Hg as [|z g Hz _]; simpl; [reflexivity|].
    rewrite (sort_key_other x Hx), (sort_key_other z Hz). reflexivity.
  - rewrite (sort_key_other x Hx), (sort_key_stock y Hy). simpl.
    rewrite IH. reflexivity.
Qed.

Lemma filter_all_true {A} (f : A -> bool) l :
  Forall (fun y => f y = true) (List.filter f l).
Proof.
  apply List.Forall_forall. intros y Hy. apply List.filter_In in Hy. tauto.
Qed.

Lemma filter_not_stock_false l :
  Forall (fun y => is_stock y = false) (List.filter not_stock l).
Proof.
  apply List.Forall_forall. intros y Hy. apply List.filter_In in Hy.
  destruct Hy as [_ Hy]. unfold not_stock in Hy. apply negb_true_iff. exact Hy.
Qed.

(** The stable sort by [sort_key] is the stable two-way partition. *)
Lemma sort_is_stock_first l : sort_stable sort_key l = stock_first l.
Proof.
  unfold stock_first. induction l as [|x l IH]; [reflexivity|].
  simpl. rewrite IH. change (not_stock x) with (negb (is_stock x)).
  destruct (is_stock x) eqn:Hx; simpl.
  - apply insert_stock_front. exact Hx.
  - apply insert_other_after_stock; [exact Hx|apply filter_all_true|].
    apply filter_not_stock_false.
Qed.

Lemma stock_first_perm l : Permutation (stock_first l) l.
Proof.
  unfold stock_first. induction l as [|x l IH]; [reflexivity|].
  simpl. change (not_stock x) with (negb (is_stock x)).
  destruct (is_stock x); simpl.
  - constructor. exact IH.
  - rewrite <- Permutation_middle. constructor. exact IH.
Qed.

Lemma unique_from_first seen l x :
  x ∈ unique_from seen l ->
  (n_title x ∉ seen) /\ first_titled (n_title x) l = Some x.
Proof.
  revert seen. induction l as [|n rest IH]; intros seen Hx; simpl in Hx.
  - apply elem_of_nil in Hx. contradiction.
  - destruct (decide (n_title n ∈ seen)) as [Hin|Hnin].
    + destruct (IH _ Hx) as [Hs Hf]. split; [exact Hs|].
      unfold first_titled. simpl.
      destruct (String.eqb (n_title n) (n_title x)) eqn:E; [|exact Hf].
      apply String.eqb_eq in E. rewrite E in Hin. contradiction.
    + apply elem_of_cons in Hx. destruct Hx as [->|Hx].
      * split; [exact Hnin|]. unfold first_titled. simpl.
        rewrite String.eqb_refl. reflexivity.
      * destruct (IH _ Hx) as [Hs Hf].
        assert (Hne : n_title x ≠ n_title n) by set_solver.
        split; [set_solver|]. unfold first_titled. simpl.
        destruct (String.eqb (n_title n) (n_title x)) eqn:E; [|exact Hf].
        apply String.eqb_eq in E. congruence.
Qed.

Lemma unique_from_nodup seen l : NoDup (map n_title (unique_from seen l)).
Proof.
  revert seen. induction l as [|n rest IH]; intros seen; simpl.
  - constructor.
  - destruct (decide (n_title n ∈ seen)); [apply IH|].
    simpl. constructor; [|apply IH].
    intros Hin. apply list_elem_of_fmap in Hin. destruct Hin as (y & Hy & Hin).
    apply unique_from_first in Hin. destruct Hin as [Hs _]. set_solver.
Qed.

Lemma unique_from_sublist seen l : sublist (unique_from seen l) l.
Proof.
  revert seen. induction l as [|n rest IH]; intros seen; simpl.
  - constructor.
  - destruct (decide (n_title n ∈ seen)).
    + apply sublist_cons. apply IH.
    + apply sublist_skip. apply IH.
Qed.

Lemma unique_from_covers seen l x :
  x ∈ l -> n_title x ∉ seen ->
  exists y, y ∈ unique_from seen l /\ n_title y = n_title x.
Proof.
  revert seen. induction l as [|n rest IH]; intros seen Hx Hs.
  - apply elem_of_nil in Hx. contradiction.
  - simpl. destruct (decide (n_title n ∈ seen)) as [Hin|Hnin].
    + apply elem_of_cons in Hx. destruct Hx as [->|Hx]; [contradiction|].
      apply IH; assumption.
    + destruct (decide (n_title n = n_title x)) as [E|E].
      * exists n. split; [left|exact E].
      * apply elem_of_cons in Hx. destruct Hx as [->|Hx]; [congruence|].
        destruct (IH ({[n_title n]} ∪ seen) Hx) as (y & Hy & Ht); [set_solver|].
        exists y. split; [right; exact Hy|exact Ht].
Qed.

Lemma rank_news_spec all_news :
  rank_news all_news = take 25 (stock_first (unique_news all_news)).
Proof. unfold rank_news. rewrite sort_is_stock_first. reflexivity. Qed.

Lemma rank_news_sub all_news x :
  x ∈ rank_news all_news -> x ∈ unique_news all_news.
Proof.
  rewrite rank_news_spec. intros Hx.
  apply (elem_of_sublist _ (stock_first (unique_news all_news))) in Hx;
    [|apply sublist_take].
  rewrite stock_first_perm in Hx. exact Hx.
Qed.

Lemma rank_news_nodup all_news : NoDup (map n_title (rank_news all_news)).
Proof.
  rewrite rank_news_spec.
  apply (sublist_NoDup _ (map n_title (stock_first (unique_news all_news)))).
  - rewrite stock_first_perm. apply unique_from_nodup.
  - apply fmap_sublist, sublist_take.
Qed.

Lemma nodup_titles_inj (l : list NewsItem) x y :
  NoDup (map n_title l) -> x ∈ l -> y ∈ l -> n_title x = n_title y -> x = y.
Proof.
  induction l as [|n l IH]; intros Hnd Hx Hy Ht.
  - apply elem_of_nil in Hx. contradiction.
  - simpl in Hnd. apply NoDup_cons in Hnd. destruct Hnd as [Hn Hnd].
    apply elem_of_cons in Hx. apply elem_of_cons in Hy.
    destruct Hx as [->|Hx], Hy as [->|Hy].
    + reflexivity.
    + exfalso. apply Hn. rewrite Ht. apply list_elem_of_fmap. exists y. auto.
    + exfalso. apply Hn. rewrite <- Ht. apply list_elem_of_fmap. exists x. auto.
    + apply IH; assumption.
Qed.

Lemma stock_first_order (l : list NewsItem) (i j : nat) x y :
  stock_first l !! i = Some x -> stock_first l !! j = Some y ->
  is_stock x = false -> is_stock y = true -> (j < i)%nat.
Proof.
  unfold stock_first. intros Hi Hj Hx Hy.
  apply lookup_app_Some in Hi. apply lookup_app_Some in Hj.
  destruct Hi as [Hi|[Hlen Hi]].
  { apply list_elem_of_lookup_2, list_elem_of_In, List.filter_In in Hi.
    destruct Hi as [_ Hi]. congruence. }
  destruct Hj as [Hj|[_ Hj]].
  { apply lookup_lt_Some in Hj. lia. }
  apply list_elem_of_lookup_2, list_elem_of_In, List.filter_In in Hj.
  destruct Hj as [_ Hj]. unfold not_stock in Hj. rewrite Hy in Hj. discriminate.
Qed.

(** The specification's test: two items with one title, nothing else. *)
Lemma rank_news_pair a b : n_title a = n_title b -> rank_news [a; b] = [a].
Proof.
  intros Ht. unfold rank_news, unique_news. simpl.
  rewrite decide_False by set_solver.
  rewrite decide_True by set_solver.
  reflexivity.
Qed.

(** The classifier gives one of the two tags. *)
Lemma classify_news_tags title summary :
  _classify_news title summary = "stock" \/ _classify_news title summary = "general".
Proof. unfold _classify_news. destruct (existsb _ _); auto. Qed.

(** C3, as amended. The output is the input de-duplicated by exact title
    keeping the first-seen item, then stably partitioned with the
    stock-tagged items first, then cut to its first 25 items. No item
    tagged otherwise stands before a stock-tagged one. Of the input items
    sharing a title at most one is in the output, and it is the first-seen
    one; when the input has at most 25 distinct titles, exactly one is (so
    two items with one title alone give just the first). *)
Theorem news_ranking_contract (all_news : list NewsItem) :
  rank_news all_news = take 25 (stock_first (unique_news all_news)) /\
  sublist (unique_news all_news) all_news /\
  (length (rank_news all_news) <= 25)%nat /\
  (forall (i j : nat) x y,
      rank_news all_news !! i = Some x -> rank_news all_news !! j = Some y ->
      n_tag x ≠ "stock" -> n_tag y = "stock" -> (j < i)%nat) /\
  NoDup (map n_title (rank_news all_news)) /\
  (forall x, x ∈ rank_news all_news ->
             first_titled (n_title x) all_news = Some x) /\
  ((length (unique_news all_news) <= 25)%nat ->
   forall x, x ∈ all_news ->
     exists y, y ∈ rank_news all_news /\ n_title y = n_title x /\
               first_titled (n_title x) all_news = Some y /\
               forall z, z ∈ rank_news all_news -> n_title z = n_title x -> z = y) /\
  (forall a b, n_title a = n_title b -> rank_news [a; b] = [a]).
Proof.
  split; [apply rank_news_spec|].
  split; [apply unique_from_sublist|].
  split; [rewrite rank_news_spec, length_take; lia|].
  split.
  { intros i j x y Hi Hj Hx Hy. rewrite rank_news_spec in Hi, Hj.
    apply lookup_take_Some in Hi. apply lookup_take_Some in Hj.
    destruct Hi as [Hi _], Hj as [Hj _].
    apply (stock_first_order _ _ _ _ _ Hi Hj).
    - unfold is_stock. apply String.eqb_neq. exact Hx.
    - unfold is_stock. apply String.eqb_eq. exact Hy. }
  split; [apply rank_news_nodup|].
  split.
  { intros x Hx. apply rank_news_sub in Hx.
    apply unique_from_first in Hx. tauto. }
  split; [|apply rank_news_pair].
  intros Hlen x Hx.
  destruct (unique_from_covers ∅ all_news x Hx) as (y & Hy & Ht); [set_solver|].
  assert (Hout : y ∈ rank_news all_news).
  { rewrite rank_news_spec, take_ge.
    - rewrite stock_first_perm. exact Hy.
    - rewrite stock_first_perm. exact Hlen. }
  exists y. split; [exact Hout|]. split; [exact Ht|]. split.
  - rewrite <- Ht. apply (unique_from_first ∅). exact Hy.
  - intros z Hz Hzt.
    apply (nodup_titles_inj (rank_news all_news)); try assumption.
    + apply rank_news_nodup.
    + congruence.
Qed.

(** ** Daily rating *)

Lemma fetch_stock_frame e w :
  w_rating (snd (fetch_stock_data e w)) = w_rating w /\
  llm_calls (snd (fetch_stock_data e w)) = llm_calls w.
Proof.
  unfold fetch_stock_data, llm_calls.
  destruct (_get_cache _ _ _) as [v|]; [destruct (truthy v)|]; simpl;
    rewrite ?List.filter_app, ?length_app; simpl; auto with lia.
Qed.

Lemma fetch_news_frame e w :
  w_rating (snd (fetch_news e w)) = w_rating w /\
  llm_calls (snd (fetch_news e w)) = llm_calls w.
Proof.
  unfold fetch_news, llm_calls.
  destruct (_get_cache _ _ _) as [v|]; [destruct (truthy v)|]; simpl;
    rewrite ?List.filter_app, ?length_app; simpl; auto with lia.
Qed.

Lemma fetch_kline_frame period count e w :
  w_rating (snd (fetch_kline_data period count e w)) = w_rating w /\
  llm_calls (snd (fetch_kline_data period count e w)) = llm_calls w.
Proof.
  unfold fetch_kline_data, llm_calls.
  destruct (_get_cache _ _ _) as [v|]; [destruct (truthy v)|]; simpl;
    rewrite ?List.filter_app, ?length_app; simpl; auto with lia.
Qed.

Lemma gathered_frame e w :
  w_rating (gathered e w) = w_rating w /\ llm_calls (gathered e w) = llm_calls w.
Proof.
  unfold gathered.
  destruct (fetch_kline_frame "day" 30 (r_kline e)
              (snd (fetch_news (r_news e) (snd (fetch_stock_data (r_quote e) w)))))
    as [-> ->].
  destruct (fetch_news_frame (r_news e) (snd (fetch_stock_data (r_quote e) w)))
    as [-> ->].
  apply fetch_stock_frame.
Qed.

(** [get_rating] when today's memo is absent. *)
Lemma get_rating_miss e w :
  w_rating w !! r_today e = None ->
  get_rating e w =
  let w3 := gathered e w in
  if String.eqb (r_api_key e) EmptyString then
    (no_key_rating (r_today e),
     with_rating (<[r_today e := no_key_rating (r_today e)]> (w_rating w3)) w3)
  else
    match rating_steps (r_today e) (r_answer e) with
    | Ok rating_data =>
        (rating_data,
         with_rating (<[r_today e := rating_data]> (w_rating w3))
                     (logged PostRatingCompletion w3))
    | Raise _ => (failure_rating (r_today e), logged PostRatingCompletion w3)
    end.
Proof.
  intros Hmiss. unfold get_rating, gathered. rewrite Hmiss.
  destruct (fetch_stock_data (r_quote e) w) as [s w1]. simpl.
  destruct (fetch_news (r_news e) w1) as [n w2]. simpl.
  destruct (fetch_kline_data "day" 30 (r_kline e) w2) as [k w3]. simpl.
  reflexivity.
Qed.

(** After the refresh endpoint's two clears no date has a memo. *)
Lemma clear_all_forgets w today : w_rating (clear_all w) !! today = None.
Proof. apply lookup_empty. Qed.

Lemma get_rating_hit e w memo :
  w_rating w !! r_today e = Some memo -> get_rating e w = (memo, w).
Proof. intros Hhit. unfold get_rating. rewrite Hhit. reflexivity. Qed.

Lemma llm_calls_logged w :
  llm_calls (logged PostRatingCompletion w) = S (llm_calls w).
Proof.
  unfold llm_calls, logged. simpl. rewrite List.filter_app, length_app. simpl. lia.
Qed.

Lemma dict_get_set_eq k v kv : dict_get k (dict_set k v kv) = Some v.
Proof.
  induction kv as [|[k' v'] kv IH]; simpl.
  - rewrite String.eqb_refl. reflexivity.
  - destruct (String.eqb k k') eqn:E; simpl; rewrite E; [reflexivity|exact IH].
Qed.

Lemma dict_get_set_ne k k' v kv :
  k ≠ k' -> dict_get k' (dict_set k v kv) = dict_get k' kv.
Proof.
  intros Hne. induction kv as [|[k0 v0] kv IH]; simpl.
  - apply String.eqb_neq in Hne. rewrite String.eqb_sym, Hne. reflexivity.
  - destruct (String.eqb k k0) eqn:E; simpl.
    + apply String.eqb_eq in E. subst k0.
      assert (Hn : String.eqb k' k = false) by (apply String.eqb_neq; congruence).
      rewrite Hn. reflexivity.
    + destruct (String.eqb k' k0); [reflexivity|exact IH].
Qed.

(** The validation on a decoded object: it fails exactly when [int()] of
    the score does, and otherwise returns the object with the four fields
    repaired and every other key as it was. *)
Lemma validate_rating_object today kv :
  match py_int (default (JInt 50) (dict_get "score" kv)) with
  | Raise ex => validate_rating today (JObj kv) = Raise ex
  | Ok score =>
      exists kv',
        validate_rating today (JObj kv) = Ok (JObj kv') /\
        (is_valid_rating (default JNull (dict_get "rating" kv)) = true ->
         dict_get "rating" kv' = dict_get "rating" kv) /\
        (is_valid_rating (default JNull (dict_get "rating" kv)) = false ->
         dict_get "rating" kv' = Some (JStr "中性")) /\
        dict_get "score" kv' = Some (JInt (clamp_score score)) /\
        0 <= clamp_score score <= 100 /\
        dict_get "date" kv' = Some (JStr today) /\
        dict_get "factors" kv' =
          Some (default default_factors (dict_get "factors" kv)) /\
        (forall k, k ≠ "rating" -> k ≠ "score" -> k ≠ "date" -> k ≠ "factors" ->
                   dict_get k kv' = dict_get k kv)
  end.
Proof.
  unfold validate_rating. cbn [py_get mbind res_bind].
  set (valid := is_valid_rating (default JNull (dict_get "rating" kv))).
  set (kv1 := if valid then kv else dict_set "rating" (JStr "中性") kv).
  assert (Hscore : dict_get "score" kv1 = dict_get "score" kv).
  { unfold kv1. destruct valid; [reflexivity|]. apply dict_get_set_ne. discriminate. }
  assert (Hfac1 : dict_get "factors" kv1 = dict_get "factors" kv).
  { unfold kv1. destruct valid; [reflexivity|]. apply dict_get_set_ne. discriminate. }
  rewrite Hscore.
  destruct (py_int (default (JInt 50) (dict_get "score" kv))) as [score|ex];
    [|reflexivity].
  set (kv3 := dict_set "date" (JStr today)
                (dict_set "score" (JInt (Z.max 0 (Z.min 100 score))) kv1)).
  assert (Hfac3 : dict_get "factors" kv3 = dict_get "factors" kv).
  { unfold kv3. rewrite !dict_get_set_ne by discriminate. exact Hfac1. }
  eexists. split; [reflexivity|].
  fold kv3. rewrite Hfac3.
  destruct (dict_get "factors" kv) as [f|] eqn:Hf.
  - repeat split.
    + intros Hv. unfold kv3. rewrite !dict_get_set_ne by discriminate.
      unfold kv1. fold valid in Hv. rewrite Hv. reflexivity.
    + intros Hv. unfold kv3. rewrite !dict_get_set_ne by discriminate.
      unfold kv1. fold valid in Hv. rewrite Hv. apply dict_get_set_eq.
    + unfold kv3. rewrite dict_get_set_ne by discriminate. apply dict_get_set_eq.
    + unfold clamp_score. lia.
    + unfold clamp_score. lia.
    + unfold kv3. apply dict_get_set_eq.
    + exact Hfac3.
    + intros k H1 H2 H3 H4. unfold kv3.
      rewrite !dict_get_set_ne by congruence.
      unfold kv1. destruct valid; [reflexivity|].
      apply dict_get_set_ne. congruence.
  - repeat split.
    + intros Hv. rewrite dict_get_set_ne by discriminate.
      unfold kv3. rewrite !dict_get_set_ne by discriminate.
      unfold kv1. fold valid in Hv. rewrite Hv. reflexivity.
    + intros Hv. rewrite dict_get_set_ne by discriminate.
      unfold kv3. rewrite !dict_get_set_ne by discriminate.
      unfold kv1. fold valid in Hv. rewrite Hv. apply dict_get_set_eq.
    + rewrite dict_get_set_ne by discriminate.
      unfold kv3. rewrite dict_get_set_ne by discriminate. apply dict_get_set_eq.
    + unfold clamp_score. lia.
    + unfold clamp_score. lia.
    + rewrite dict_get_set_ne by discriminate. unfold kv3. apply dict_get_set_eq.
    + apply dict_get_set_eq.
    + intros k H1 H2 H3 H4. rewrite dict_get_set_ne by congruence. unfold kv3.
      rewrite !dict_get_set_ne by congruence.
      unfold kv1. destruct valid; [reflexivity|].
      apply dict_get_set_ne. congruence.
Qed.

Lemma validate_rating_ok today d r :
  validate_rating today d = Ok r ->
  (exists kv, d = JObj kv) /\ well_formed_rating today r.
Proof.
  intros Hv. destruct d as [| | | | | |kv]; try discriminate Hv.
  split; [eexists; reflexivity|].
  pose proof (validate_rating_object today kv) as Hobj.
  destruct (py_int _) as [score|ex]; [|congruence].
  destruct Hobj as (kv' & Hk & Hvalid & Hinvalid & Hs & Hrange & Hd & Hf & _).
  rewrite Hk in Hv. injection Hv as <-.
  exists kv'. split; [reflexivity|]. split.
  - destruct (is_valid_rating (default JNull (dict_get "rating" kv))) eqn:E.
    + rewrite (Hvalid eq_refl). exact E.
    + rewrite (Hinvalid eq_refl). reflexivity.
  - split; [exists (clamp_score score); auto|]. split; [exact Hd|].
    rewrite Hf. eexists; reflexivity.
Qed.

Lemma rating_steps_ok today answer r :
  rating_steps today answer = Ok r ->
  exists content d,
    content ≠ EmptyString /\
    json_loads (clean_result content) = Some d /\
    validate_rating today d = Ok r.
Proof.
  unfold rating_steps. destruct answer as [[status text]|ex]; [|discriminate].
  unfold mbind at 1 2, res_bind at 1 2.
  destruct (if status =? 200 then _ else _) as [content|ex]; [|discriminate].
  destruct (String.eqb content EmptyString) eqn:E; [discriminate|].
  unfold mbind, res_bind.
  destruct (json_loads (clean_result content)) as [d|] eqn:Hd; [|discriminate].
  cbn [or_raise]. intros Hv. exists content, d. split; [|auto].
  apply String.eqb_neq. exact E.
Qed.

Lemma no_key_rating_well_formed today : well_formed_rating today (no_key_rating today).
Proof.
  eexists. split; [reflexivity|]. repeat split; try reflexivity.
  - exists 50. split; [reflexivity|lia].
  - eexists; reflexivity.
Qed.

Lemma failure_rating_well_formed today : well_formed_rating today (failure_rating today).
Proof.
  eexists. split; [reflexivity|]. repeat split; try reflexivity.
  - exists 50. split; [reflexivity|lia].
  - eexists; reflexivity.
Qed.

(** Whatever the upstream answers, a freshly computed rating is well formed. *)
Lemma get_rating_well_formed e w :
  w_rating w !! r_today e = None ->
  well_formed_rating (r_today e) (fst (get_rating e w)).
Proof.
  intros Hmiss. rewrite (get_rating_miss e w Hmiss). cbv zeta.
  destruct (String.eqb (r_api_key e) EmptyString); simpl.
  - apply no_key_rating_well_formed.
  - destruct (rating_steps (r_today e) (r_answer e)) as [r|ex] eqn:Hr; simpl.
    + apply rating_steps_ok in Hr. destruct Hr as (c & d & _ & _ & Hv).
      apply validate_rating_ok in Hv. exact (proj2 Hv).
    + apply failure_rating_well_formed.
Qed.

(** The completion text reaches the validation as the object it decodes to. *)
Lemma rating_steps_decoded today text body content d :
  json_loads text = Some body ->
  extract_content body = Ok content ->
  content ≠ EmptyString ->
  json_loads (clean_result content) = Some d ->
  rating_steps today (Ok (200, text)) = validate_rating today d.
Proof.
  intros Hb Hc Hne Hd. unfold rating_steps, mbind, res_bind.
  change (200 =? 200) with true. cbv iota.
  rewrite Hb. cbn [or_raise]. rewrite Hc.
  apply String.eqb_neq in Hne. rewrite Hne, Hd. reflexivity.
Qed.

(** C2. On every decoded rating object the validation keeps a label that is
    one of the five and replaces any other by 中性, stores the score as
    [int()] gives it clamped to 0..100, overwrites the date with today's,
    and adds the factors [--, --, --] when the object has none; it fails
    only when [int()] of the score fails, and then the endpoint answers
    with the neutral rating. Every freshly computed rating is therefore well
    formed, and the object with label "buy-buy" and score 150 becomes 中性
    with score 100. *)
Theorem rating_repair (today : string) (kv : list (string * json)) :
  match py_int (default (JInt 50) (dict_get "score" kv)) with
  | Raise ex => validate_rating today (JObj kv) = Raise ex
  | Ok score =>
      exists kv',
        validate_rating today (JObj kv) = Ok (JObj kv') /\
        dict_get "rating" kv' = Some (repaired_label kv) /\
        is_valid_rating (repaired_label kv) = true /\
        dict_get "score" kv' = Some (JInt (clamp_score score)) /\
        0 <= clamp_score score <= 100 /\
        dict_get "date" kv' = Some (JStr today) /\
        dict_get "factors" kv' =
          Some (default default_factors (dict_get "factors" kv))
  end /\
  (forall e w text body content,
      w_rating w !! r_today e = None ->
      r_api_key e ≠ EmptyString ->
      r_today e = today ->
      r_answer e = Ok (200, text) ->
      json_loads text = Some body ->
      extract_content body = Ok content ->
      content ≠ EmptyString ->
      json_loads (clean_result content) = Some (JObj kv) ->
      fst (get_rating e w) =
        match validate_rating today (JObj kv) with
        | Ok r => r
        | Raise _ => failure_rating today
        end /\
      well_formed_rating today (fst (get_rating e w))) /\
  validate_rating today (JObj buy_buy_150) =
    Ok (JObj [("rating", JStr "中性"); ("score", JInt 100);
              ("date", JStr today); ("factors", default_factors)]).
Proof.
  split; [|split; [|reflexivity]].
  - pose proof (validate_rating_object today kv) as Hobj.
    destruct (py_int _) as [score|ex]; [|exact Hobj].
    destruct Hobj as (kv' & Hk & Hvalid & Hinvalid & Hs & Hrange & Hd & Hf & _).
    exists kv'. split; [exact Hk|].
    unfold repaired_label.
    destruct (is_valid_rating (default JNull (dict_get "rating" kv))) eqn:E.
    + split.
      { rewrite (Hvalid eq_refl). destruct (dict_get "rating" kv); [reflexivity|].
        discriminate E. }
      auto.
    + split; [apply Hinvalid; reflexivity|]. split; [reflexivity|auto].
  - intros e w text body content Hmiss Hkey Htoday Hans Hbody Hcontent Hne Hload.
    split.
    + rewrite (get_rating_miss e w Hmiss). cbv zeta.
      apply String.eqb_neq in Hkey. rewrite Hkey, Hans, Htoday.
      rewrite (rating_steps_decoded today text body content (JObj kv))
        by assumption.
      destruct (validate_rating today (JObj kv)); reflexivity.
    + rewrite <- Htoday. apply get_rating_well_formed. exact Hmiss.
Qed.

(** C1. When a rating is stored under today's date, [get_rating] returns
    it as it is and leaves the state untouched: no fetch, no call of the
    completion endpoint, no validation. The answer the endpoint would give
    plays no part: every call on that date returns the same stored value. *)
Theorem rating_memoized_per_date e w memo :
  w_rating w !! r_today e = Some memo ->
  get_rating e w = (memo, w) /\
  llm_calls (snd (get_rating e w)) = llm_calls w /\
  w_log (snd (get_rating e w)) = w_log w /\
  (forall e', r_today e' = r_today e -> get_rating e' w = (memo, w)).
Proof.
  intros Hhit. rewrite (get_rating_hit e w memo Hhit). simpl.
  repeat split. intros e' Htoday. apply get_rating_hit. rewrite Htoday. exact Hhit.
Qed.

(** A rating computed without a failure is left in the memo. *)
Lemma get_rating_stores e w :
  w_rating w !! r_today e = None ->
  (r_api_key e = EmptyString \/
   exists r, rating_steps (r_today e) (r_answer e) = Ok r) ->
  w_rating (snd (get_rating e w)) !! r_today e = Some (fst (get_rating e w)).
Proof.
  intros Hmiss Hok. rewrite (get_rating_miss e w Hmiss). cbv zeta.
  destruct (String.eqb (r_api_key e) EmptyString) eqn:Hkey; simpl.
  - apply lookup_insert_eq.
  - destruct Hok as [Hk|[r Hr]].
    + apply String.eqb_neq in Hkey. contradiction.
    + rewrite Hr. simpl. apply lookup_insert_eq.
Qed.

(** The failures the specification names all end the steps with an
    exception. *)
Lemma rating_steps_failures today :
  (forall ex, rating_steps today (Raise ex) = Raise ex) /\
  (forall status text, status ≠ 200 ->
     exists ex, rating_steps today (Ok (status, text)) = Raise ex) /\
  (forall text, json_loads text = None ->
     rating_steps today (Ok (200, text)) = Raise JSONDecodeError) /\
  (forall text body, json_loads text = Some body ->
     extract_content body = Ok EmptyString ->
     rating_steps today (Ok (200, text)) = Raise (PlainException "AI返回内容为空")) /\
  (forall text body content, json_loads text = Some body ->
     extract_content body = Ok content -> content ≠ EmptyString ->
     json_loads (clean_result content) = None ->
     rating_steps today (Ok (200, text)) = Raise JSONDecodeError).
Proof.
  split; [reflexivity|]. split; [|split; [|split]].
  - intros status text Hs. unfold rating_steps, mbind, res_bind.
    apply Z.eqb_neq in Hs. rewrite Hs. eexists. reflexivity.
  - intros text Ht. unfold rating_steps, mbind, res_bind.
    change (200 =? 200) with true. cbv iota. rewrite Ht. reflexivity.
  - intros text body Hb Hc. unfold rating_steps, mbind, res_bind.
    change (200 =? 200) with true. cbv iota. rewrite Hb. cbn [or_raise].
    rewrite Hc. reflexivity.
  - intros text body content Hb Hc Hne Hd. unfold rating_steps, mbind, res_bind.
    change (200 =? 200) with true. cbv iota. rewrite Hb. cbn [or_raise].
    rewrite Hc. apply String.eqb_neq in Hne. rewrite Hne, Hd. reflexivity.
Qed.

(** C7. When any of the steps inside the [try] raises, the endpoint
    answers with the neutral rating (中性, 50) whose summary reports the
    failure, and today's entry of the memo stays absent: the memo is left
    as it was. The next call on that date with a key configured therefore
    calls the completion endpoint again. A transport error, a status other
    than 200, an empty extracted content and a text that does not decode
    are such failures. *)
Theorem rating_failure_not_memoized e w ex :
  w_rating w !! r_today e = None ->
  r_api_key e ≠ EmptyString ->
  rating_steps (r_today e) (r_answer e) = Raise ex ->
  fst (get_rating e w) = failure_rating (r_today e) /\
  failure_rating (r_today e) =
    JObj [("date", JStr (r_today e)); ("rating", JStr "中性"); ("score", JInt 50);
          ("summary", JStr "AI 评级生成失败，请稍后重试。");
          ("factors", default_factors)] /\
  w_rating (snd (get_rating e w)) = w_rating w /\
  w_rating (snd (get_rating e w)) !! r_today e = None /\
  llm_calls (snd (get_rating e w)) = S (llm_calls w) /\
  (forall e', r_today e' = r_today e -> r_api_key e' ≠ EmptyString ->
     llm_calls (snd (get_rating e' (snd (get_rating e w)))) =
     S (llm_calls (snd (get_rating e w)))) /\
  (forall ex0, rating_steps (r_today e) (Raise ex0) = Raise ex0) /\
  (forall status text, status ≠ 200 ->
     exists ex0, rating_steps (r_today e) (Ok (status, text)) = Raise ex0) /\
  (forall text body, json_loads text = Some body ->
     extract_content body = Ok EmptyString ->
     exists ex0, rating_steps (r_today e) (Ok (200, text)) = Raise ex0) /\
  (forall text body content, json_loads text = Some body ->
     extract_content body = Ok content -> content ≠ EmptyString ->
     json_loads (clean_result content) = None ->
     rating_steps (r_today e) (Ok (200, text)) = Raise JSONDecodeError).
Proof.
  intros Hmiss Hkey Hfail.
  destruct (rating_steps_failures (r_today e)) as (Hnet & Hstatus & _ & Hempty & Hparse).
  assert (Hrun : get_rating e w =
                 (failure_rating (r_today e), logged PostRatingCompletion (gathered e w))).
  { rewrite (get_rating_miss e w Hmiss). cbv zeta.
    apply String.eqb_neq in Hkey. rewrite Hkey, Hfail. reflexivity. }
  rewrite Hrun. simpl fst. simpl snd.
  destruct (gathered_frame e w) as [Hr Hl].
  assert (Hmemo : w_rating (logged PostRatingCompletion (gathered e w)) = w_rating w).
  { simpl. exact Hr. }
  split; [reflexivity|]. split; [reflexivity|]. split; [exact Hmemo|].
  split; [rewrite Hmemo; exact Hmiss|].
  split; [rewrite llm_calls_logged, Hl; reflexivity|].
  split; [|split; [exact Hnet|split; [exact Hstatus|split; [|exact Hparse]]]];
    [|intros text body Hb Hc; eexists; apply (Hempty text body Hb Hc)].
  intros e' Htoday Hkey'.
  set (w1 := logged PostRatingCompletion (gathered e w)) in *.
  assert (Hmiss' : w_rating w1 !! r_today e' = None).
  { rewrite Hmemo, Htoday. exact Hmiss. }
  rewrite (get_rating_miss e' w1 Hmiss'). cbv zeta.
  apply String.eqb_neq in Hkey'. rewrite Hkey'.
  destruct (gathered_frame e' w1) as [_ Hl'].
  destruct (rating_steps (r_today e') (r_answer e')); simpl;
    change (llm_calls (logged PostRatingCompletion (gathered e' w1)) = S (llm_calls w1));
    rewrite llm_calls_logged, Hl'; reflexivity.
Qed.

(** ** Fallback report *)


(** ** Stream consumption *)

Lemma data_line payload :
  startswith "data: " ("data: " +:+ payload) = true /\
  drop_bytes 6 ("data: " +:+ payload) = payload.
Proof.
  split; [|reflexivity]. unfold startswith. simpl.
  destruct payload; reflexivity.
Qed.

(** What the loop does with one line, case by case. *)
Lemma consume_lines_step line rest :
  (startswith "data: " line = false ->
   consume_lines (line :: rest) = consume_lines rest) /\
  (startswith "data: " line = true ->
   str_strip (drop_bytes 6 line) = "[DONE]" ->
   consume_lines (line :: rest) = ([], Terminated)) /\
  (startswith "data: " line = true ->
   str_strip (drop_bytes 6 line) ≠ "[DONE]" ->
   forall content, chunk_fragment (drop_bytes 6 line) = Ok (Some content) ->
   consume_lines (line :: rest) =
   (content :: fst (consume_lines rest), snd (consume_lines rest))) /\
  (startswith "data: " line = true ->
   str_strip (drop_bytes 6 line) ≠ "[DONE]" ->
   chunk_fragment (drop_bytes 6 line) = Ok None ->
   consume_lines (line :: rest) = consume_lines rest) /\
  (startswith "data: " line = true ->
   str_strip (drop_bytes 6 line) ≠ "[DONE]" ->
   forall e, chunk_fragment (drop_bytes 6 line) = Raise e -> skipped e = true ->
   consume_lines (line :: rest) = consume_lines rest) /\
  (startswith "data: " line = true ->
   str_strip (drop_bytes 6 line) ≠ "[DONE]" ->
   forall e, chunk_fragment (drop_bytes 6 line) = Raise e -> skipped e = false ->
   consume_lines (line :: rest) = ([], Escaped e)).
Proof.
  repeat split; simpl.
  - intros ->. reflexivity.
  - intros -> ->. reflexivity.
  - intros -> Hne content ->. apply String.eqb_neq in Hne. rewrite Hne.
    destruct (consume_lines rest). reflexivity.
  - intros -> Hne ->. apply String.eqb_neq in Hne. rewrite Hne. reflexivity.
  - intros -> Hne e -> ->. apply String.eqb_neq in Hne. rewrite Hne. reflexivity.
  - intros -> Hne e -> ->. apply String.eqb_neq in Hne. rewrite Hne. reflexivity.
Qed.

(** C9. A [data: ] line whose payload decodes to a chunk with a null
    [delta] is not skipped: the membership test raises TypeError, which the
    inner handler does not catch, so the loop is left, the lines after it
    are never read, and the relay ends with the diagnostic fragment (the
    analysis stream with the templated report). *)
Theorem null_delta_line_aborts_stream payload rest :
  str_strip payload ≠ "[DONE]" ->
  json_loads payload = Some null_delta_chunk ->
  chunk_fragment payload = Raise TypeError /\
  skipped TypeError = false /\
  consume_lines (("data: " +:+ payload) :: rest) = ([], Escaped TypeError) /\
  _stream_llm_success (("data: " +:+ payload) :: rest) =
    [JStr (LF +:+ "> ⚠️ AI调用异常：" +:+ str_take 100 (exn_text TypeError) +:+ LF)] /\
  (forall now stock_data news_list kline_data,
      stream_ai_analysis_success now stock_data news_list kline_data
        (("data: " +:+ payload) :: rest) =
      [JStr (_generate_fallback_analysis now stock_data news_list kline_data)]).
Proof.
  intros Hne Hload.
  assert (Hfrag : chunk_fragment payload = Raise TypeError).
  { unfold chunk_fragment. rewrite Hload. reflexivity. }
  assert (Hrun : consume_lines (("data: " +:+ payload) :: rest) = ([], Escaped TypeError)).
  { destruct (data_line payload) as [Hs Hd].
    destruct (consume_lines_step ("data: " +:+ payload) rest)
      as (_ & _ & _ & _ & _ & Hesc).
    rewrite Hd in Hesc. apply Hesc; auto. }
  split; [exact Hfrag|]. split; [reflexivity|]. split; [exact Hrun|]. split.
  - unfold _stream_llm_success. rewrite Hrun. reflexivity.
  - intros now stock_data news_list kline_data.
    unfold stream_ai_analysis_success. rewrite Hrun. reflexivity.
Qed.


(** ** Serving from the cache *)

Lemma kline_key_not_fixed period count :
  kline_cache_key period count ≠ "stock_data" /\
  kline_cache_key period count ≠ "news_data".
Proof. unfold kline_cache_key. split; intros H; simpl in H; discriminate H. Qed.

Lemma nonempty_quote_truthy (q : quote) k :
  is_Some (q !! k) -> truthy (VQuote q) = true.
Proof.
  intros [v Hv]. simpl. apply negb_true_iff, Nat.eqb_neq.
  intros Hsize. apply map_size_empty_iff in Hsize. subst q.
  rewrite lookup_empty in Hv. discriminate.
Qed.

Lemma built_quote_truthy e : truthy (VQuote (build_stock_info e)) = true.
Proof.
  apply (nonempty_quote_truthy _ "name").
  pose proof (build_stock_info_total e) as Hall.
  apply Forall_inv in Hall. exact Hall.
Qed.

Lemma fetch_stock_served e w v :
  _get_cache (at_lookup (q_clock e)) "stock_data" (w_cache w) = Some v ->
  truthy v = true ->
  fetch_stock_data e w = (v, w).
Proof.
  intros Hget Hv. unfold fetch_stock_data. rewrite Hget, Hv. reflexivity.
Qed.

Lemma fetch_news_served e w v :
  _get_cache (at_lookup (nw_clock e)) "news_data" (w_cache w) = Some v ->
  truthy v = true ->
  fetch_news e w = (v, w).
Proof.
  intros Hget Hv. unfold fetch_news. rewrite Hget, Hv. reflexivity.
Qed.

Lemma fetch_stock_miss_run e w :
  cache_hit (_get_cache (at_lookup (q_clock e)) "stock_data" (w_cache w)) = false ->
  fetch_stock_data e w =
  (VQuote (build_stock_info e),
   mkWorld (<["stock_data" := (at_store (q_clock e), VQuote (build_stock_info e))]>
              (w_cache w))
           (w_rating w) (w_log w ++ [GetSinaQuote; GetTencentQuote])).
Proof.
  intros Hmiss. unfold fetch_stock_data.
  destruct (_get_cache _ _ _) as [v|]; simpl in *.
  - rewrite Hmiss. unfold with_cache, logged, _set_cache. simpl.
    rewrite <- app_assoc. reflexivity.
  - unfold with_cache, logged, _set_cache. simpl. rewrite <- app_assoc. reflexivity.
Qed.

(** X1. Two quote fetches whose clock readings are less than 300 s apart
    make one upstream round: when the first found nothing to serve, the
    second returns the record the first built and stored, sends no
    request and leaves the state as it is. *)
Theorem quote_fetch_served_within_ttl e0 e w :
  cache_hit (_get_cache (at_lookup (q_clock e0)) "stock_data" (w_cache w)) = false ->
  (at_lookup (q_clock e) - at_store (q_clock e0) < CACHE_TTL)%Q ->
  fetch_stock_data e (snd (fetch_stock_data e0 w)) =
    (fst (fetch_stock_data e0 w), snd (fetch_stock_data e0 w)) /\
  w_log (snd (fetch_stock_data e (snd (fetch_stock_data e0 w)))) =
    w_log w ++ [GetSinaQuote; GetTencentQuote].
Proof.
  intros Hmiss Hfresh. rewrite (fetch_stock_miss_run e0 w Hmiss). simpl.
  assert (Hserved : fetch_stock_data e
            (mkWorld (<["stock_data" := (at_store (q_clock e0), VQuote (build_stock_info e0))]>
                        (w_cache w))
                     (w_rating w) (w_log w ++ [GetSinaQuote; GetTencentQuote])) =
          (VQuote (build_stock_info e0),
           mkWorld (<["stock_data" := (at_store (q_clock e0), VQuote (build_stock_info e0))]>
                      (w_cache w))
                   (w_rating w) (w_log w ++ [GetSinaQuote; GetTencentQuote]))).
  { apply fetch_stock_served; [|apply built_quote_truthy].
    apply (get_cache_fresh _ _ (at_store (q_clock e0))); [|exact Hfresh].
    simpl. apply lookup_insert_eq. }
  rewrite Hserved. split; reflexivity.
Qed.

(** X2. A K-line or news fetch that stored a non-empty list is served
    from the cache by every fetch of the same key whose lookup reading is
    less than 300 s after the store: same list, no upstream request. *)
Theorem nonempty_list_served_within_ttl :
  (forall period count e0 e w,
      cache_hit (_get_cache (at_lookup (k_clock e0)) (kline_cache_key period count)
                            (w_cache w)) = false ->
      k_feed e0 (normalize_period period) (normalize_count count) ≠ [] ->
      (at_lookup (k_clock e) - at_store (k_clock e0) < CACHE_TTL)%Q ->
      fetch_kline_data period count e (snd (fetch_kline_data period count e0 w)) =
        (fst (fetch_kline_data period count e0 w),
         snd (fetch_kline_data period count e0 w))) /\
  (forall e0 e w,
      cache_hit (_get_cache (at_lookup (nw_clock e0)) "news_data" (w_cache w)) = false ->
      rank_news (nw_gathered e0) ≠ [] ->
      (at_lookup (nw_clock e) - at_store (nw_clock e0) < CACHE_TTL)%Q ->
      fetch_news e (snd (fetch_news e0 w)) =
        (fst (fetch_news e0 w), snd (fetch_news e0 w))).
Proof.
  split.
  - intros period count e0 e w Hmiss Hrows Hfresh.
    rewrite (fetch_kline_unserved _ _ _ _ Hmiss). unfold kline_refetch. simpl.
    apply fetch_kline_served.
    + apply (get_cache_fresh _ _ (at_store (k_clock e0))); [|exact Hfresh].
      simpl. apply lookup_insert_eq.
    + simpl. destruct (k_feed e0 _ _); [contradiction|reflexivity].
  - intros e0 e w Hmiss Hrows Hfresh.
    rewrite (fetch_news_unserved _ _ Hmiss). unfold news_refetch. simpl.
    apply fetch_news_served.
    + apply (get_cache_fresh _ _ (at_store (nw_clock e0))); [|exact Hfresh].
      simpl. apply lookup_insert_eq.
    + simpl. destruct (rank_news _); [contradiction|reflexivity].
Qed.

(** ** What the two dicts hold in every reachable state *)

Lemma rank_news_ranked all_news : ranked (rank_news all_news).
Proof.
  split; [rewrite rank_news_spec, length_take; lia|].
  split; [apply rank_news_nodup|].
  intros i j x y Hi Hj Hx Hy. rewrite rank_news_spec in Hi, Hj.
  apply lookup_take_Some in Hi. apply lookup_take_Some in Hj.
  destruct Hi as [Hi _], Hj as [Hj _].
  apply (stock_first_order _ _ _ _ _ Hi Hj).
  - unfold is_stock. apply String.eqb_neq. exact Hx.
  - unfold is_stock. apply String.eqb_eq. exact Hy.
Qed.

Lemma cache_shaped_empty : cache_shaped ∅.
Proof.
  repeat split; intros; rewrite lookup_empty in *; discriminate.
Qed.

Lemma cache_shaped_stock (c : cache) ts e :
  cache_shaped c ->
  cache_shaped (<["stock_data" := (ts, VQuote (build_stock_info e))]> c).
Proof.
  intros (Hs & Hn & Hk). split; [|split].
  - intros ts' v. rewrite lookup_insert_eq. intros [= <- <-].
    eexists. split; [reflexivity|apply build_stock_info_total].
  - intros ts' v. rewrite lookup_insert_ne by discriminate. apply Hn.
  - intros period count ts' v.
    rewrite lookup_insert_ne by (apply not_eq_sym, kline_key_not_fixed). apply Hk.
Qed.

Lemma cache_shaped_news (c : cache) ts all_news :
  cache_shaped c ->
  cache_shaped (<["news_data" := (ts, VNews (rank_news all_news))]> c).
Proof.
  intros (Hs & Hn & Hk). split; [|split].
  - intros ts' v. rewrite lookup_insert_ne by discriminate. apply Hs.
  - intros ts' v. rewrite lookup_insert_eq. intros [= <- <-].
    eexists. split; [reflexivity|apply rank_news_ranked].
  - intros period count ts' v.
    rewrite lookup_insert_ne by (apply not_eq_sym, kline_key_not_fixed). apply Hk.
Qed.

Lemma cache_shaped_kline (c : cache) period count ts rows :
  cache_shaped c ->
  cache_shaped (<[kline_cache_key period count := (ts, VKline rows)]> c).
Proof.
  intros (Hs & Hn & Hk). split; [|split].
  - intros ts' v. rewrite lookup_insert_ne by apply kline_key_not_fixed. apply Hs.
  - intros ts' v. rewrite lookup_insert_ne by apply kline_key_not_fixed. apply Hn.
  - intros period' count' ts' v. rewrite lookup_insert.
    destruct (decide (kline_cache_key period count = kline_cache_key period' count')).
    + intros [= <- <-]. eexists. reflexivity.
    + apply Hk.
Qed.

Lemma fetch_stock_shaped e w :
  cache_shaped (w_cache w) -> cache_shaped (w_cache (snd (fetch_stock_data e w))).
Proof.
  intros Hc.
  destruct (cache_hit (_get_cache (at_lookup (q_clock e)) "stock_data" (w_cache w)))
    eqn:Hhit.
  - destruct (_get_cache _ _ _) as [v|] eqn:Hget; [|discriminate].
    rewrite (fetch_stock_served e w v Hget Hhit). exact Hc.
  - rewrite (fetch_stock_miss_run e w Hhit). simpl. apply cache_shaped_stock, Hc.
Qed.

Lemma fetch_news_shaped e w :
  cache_shaped (w_cache w) -> cache_shaped (w_cache (snd (fetch_news e w))).
Proof.
  intros Hc.
  destruct (cache_hit (_get_cache (at_lookup (nw_clock e)) "news_data" (w_cache w)))
    eqn:Hhit.
  - destruct (_get_cache _ _ _) as [v|] eqn:Hget; [|discriminate].
    rewrite (fetch_news_served e w v Hget Hhit). exact Hc.
  - rewrite (fetch_news_unserved e w Hhit). simpl. apply cache_shaped_news, Hc.
Qed.

Lemma fetch_kline_shaped period count e w :
  cache_shaped (w_cache w) ->
  cache_shaped (w_cache (snd (fetch_kline_data period count e w))).
Proof.
  intros Hc.
  destruct (cache_hit (_get_cache (at_lookup (k_clock e)) (kline_cache_key period count)
                                  (w_cache w))) eqn:Hhit.
  - destruct (_get_cache _ _ _) as [v|] eqn:Hget; [|discriminate].
    rewrite (fetch_kline_served period count e w v Hget Hhit). exact Hc.
  - rewrite (fetch_kline_unserved period count e w Hhit). simpl.
    apply cache_shaped_kline, Hc.
Qed.

Lemma gathered_shaped e w :
  cache_shaped (w_cache w) -> cache_shaped (w_cache (gathered e w)).
Proof.
  intros Hc. unfold gathered.
  apply fetch_kline_shaped, fetch_news_shaped, fetch_stock_shaped, Hc.
Qed.

(** The state [get_rating] leaves: the input state on a memo hit, and
    otherwise the state after the three fetches, with at most the
    completion request logged and today's memo written. *)
Lemma get_rating_state e w :
  (snd (get_rating e w) = w /\
   w_rating w !! r_today e = Some (fst (get_rating e w))) \/
  (w_rating w !! r_today e = None /\
   w_cache (snd (get_rating e w)) = w_cache (gathered e w) /\
   (w_rating (snd (get_rating e w)) = w_rating w \/
    w_rating (snd (get_rating e w)) =
      <[r_today e := fst (get_rating e w)]> (w_rating w))).
Proof.
  destruct (w_rating w !! r_today e) as [memo|] eqn:Hmemo.
  - left. rewrite (get_rating_hit e w memo Hmemo). split; reflexivity.
  - right. split; [reflexivity|]. rewrite (get_rating_miss e w Hmemo). cbv zeta.
    destruct (gathered_frame e w) as [Hr _].
    destruct (String.eqb (r_api_key e) EmptyString); simpl.
    + split; [reflexivity|]. right. rewrite Hr. reflexivity.
    + destruct (rating_steps (r_today e) (r_answer e)); simpl.
      * split; [reflexivity|]. right. rewrite Hr. reflexivity.
      * split; [reflexivity|]. left. exact Hr.
Qed.

Lemma get_rating_shaped e w :
  cache_shaped (w_cache w) -> memo_shaped (w_rating w) ->
  cache_shaped (w_cache (snd (get_rating e w))) /\
  memo_shaped (w_rating (snd (get_rating e w))).
Proof.
  intros Hc Hm. destruct (get_rating_state e w) as [[-> _]|(Hmiss & Hcache & Hmemo)].
  - split; assumption.
  - split; [rewrite Hcache; apply gathered_shaped, Hc|].
    destruct Hmemo as [->| ->]; [exact Hm|].
    intros d r. rewrite lookup_insert.
    destruct (decide (r_today e = d)) as [<-|Hne].
    + intros [= <-]. apply get_rating_well_formed, Hmiss.
    + apply Hm.
Qed.

Lemma refresh_data_run qe ne ke w :
  refresh_data qe ne ke w =
  let w1 := snd (fetch_stock_data qe (clear_all w)) in
  let w2 := snd (fetch_news ne w1) in
  ((fst (fetch_stock_data qe (clear_all w)), fst (fetch_news ne w1),
    value_len (fst (fetch_kline_data "day" 60 ke w2))),
   snd (fetch_kline_data "day" 60 ke w2)).
Proof.
  unfold refresh_data.
  destruct (fetch_stock_data qe (clear_all w)) as [s w1]. simpl.
  destruct (fetch_news ne w1) as [n w2]. simpl.
  destruct (fetch_kline_data "day" 60 ke w2) as [k w3]. reflexivity.
Qed.

Lemma run_call_shaped w c :
  cache_shaped (w_cache w) -> memo_shaped (w_rating w) ->
  cache_shaped (w_cache (run_call w c)) /\ memo_shaped (w_rating (run_call w c)).
Proof.
  intros Hc Hm. destruct c as [e|period count e|e|e|qe ne ke]; simpl.
  - split; [apply fetch_stock_shaped, Hc|].
    rewrite (proj1 (fetch_stock_frame e w)). exact Hm.
  - split; [apply fetch_kline_shaped, Hc|].
    rewrite (proj1 (fetch_kline_frame period count e w)). exact Hm.
  - split; [apply fetch_news_shaped, Hc|].
    rewrite (proj1 (fetch_news_frame e w)). exact Hm.
  - apply get_rating_shaped; assumption.
  - rewrite refresh_data_run. cbv zeta. simpl snd. split.
    + apply fetch_kline_shaped, fetch_news_shaped, fetch_stock_shaped.
      apply cache_shaped_empty.
    + rewrite (proj1 (fetch_kline_frame _ _ _ _)), (proj1 (fetch_news_frame _ _)),
        (proj1 (fetch_stock_frame _ _)).
      intros d r. simpl. rewrite lookup_empty. discriminate.
Qed.

Lemma reachable_shaped cs :
  cache_shaped (w_cache (run_calls cs initial_world)) /\
  memo_shaped (w_rating (run_calls cs initial_world)).
Proof.
  unfold run_calls.
  assert (Hgen : forall w, cache_shaped (w_cache w) -> memo_shaped (w_rating w) ->
                 cache_shaped (w_cache (fold_left run_call cs w)) /\
                 memo_shaped (w_rating (fold_left run_call cs w))).
  { induction cs as [|c cs IH]; intros w Hc Hm; simpl; [split; assumption|].
    destruct (run_call_shaped w c Hc Hm) as [Hc' Hm']. apply IH; assumption. }
  apply Hgen; [apply cache_shaped_empty|].
  intros d r. simpl. rewrite lookup_empty. discriminate.
Qed.

(** X3. In every state reached from process start by any sequence of
    calls to the data endpoints, the three fetchers return objects of
    their own kind, whether freshly built or served from the cache: the
    quote fetch a record with every base field, the news fetch a list of
    at most 25 items with pairwise distinct titles and the stock-tagged
    items first, the K-line fetch a list of candles. *)
Theorem fetchers_return_their_kind cs :
  (forall e, exists q,
      fst (fetch_stock_data e (run_calls cs initial_world)) = VQuote q /\
      Forall (fun k => is_Some (q !! k)) base_fields) /\
  (forall e, exists l,
      fst (fetch_news e (run_calls cs initial_world)) = VNews l /\ ranked l) /\
  (forall period count e, exists l,
      fst (fetch_kline_data period count e (run_calls cs initial_world)) = VKline l).
Proof.
  destruct (reachable_shaped cs) as [(Hs & Hn & Hk) _].
  set (w := run_calls cs initial_world) in *.
  split; [|split].
  - intros e.
    destruct (cache_hit (_get_cache (at_lookup (q_clock e)) "stock_data" (w_cache w)))
      eqn:Hhit.
    + destruct (_get_cache _ _ _) as [v|] eqn:Hget; [|discriminate].
      rewrite (fetch_stock_served e w v Hget Hhit).
      apply get_cache_some in Hget. destruct Hget as (ts & Hc & _).
      apply (Hs ts v Hc).
    + rewrite (fetch_stock_miss_run e w Hhit). simpl.
      eexists. split; [reflexivity|apply build_stock_info_total].
  - intros e.
    destruct (cache_hit (_get_cache (at_lookup (nw_clock e)) "news_data" (w_cache w)))
      eqn:Hhit.
    + destruct (_get_cache _ _ _) as [v|] eqn:Hget; [|discriminate].
      rewrite (fetch_news_served e w v Hget Hhit).
      apply get_cache_some in Hget. destruct Hget as (ts & Hc & _).
      apply (Hn ts v Hc).
    + rewrite (fetch_news_unserved e w Hhit). simpl.
      eexists. split; [reflexivity|apply rank_news_ranked].
  - intros period count e.
    destruct (cache_hit (_get_cache (at_lookup (k_clock e))
                (kline_cache_key period count) (w_cache w))) eqn:Hhit.
    + destruct (_get_cache _ _ _) as [v|] eqn:Hget; [|discriminate].
      rewrite (fetch_kline_served period count e w v Hget Hhit).
      apply get_cache_some in Hget. destruct Hget as (ts & Hc & _).
      apply (Hk period count ts v Hc).
    + rewrite (fetch_kline_unserved period count e w Hhit). simpl.
      eexists. reflexivity.
Qed.

(** X4. In every state reached from process start, whatever the rating
    endpoint returns, computed now or memoized earlier, is a well-formed
    rating dated today: one of the five labels, an integer score within
    0..100, today's date, and the factors present. *)
Theorem rating_always_well_formed cs e :
  well_formed_rating (r_today e) (fst (get_rating e (run_calls cs initial_world))).
Proof.
  destruct (reachable_shaped cs) as [_ Hm].
  set (w := run_calls cs initial_world) in *.
  destruct (get_rating_state e w) as [[_ Hhit]|(Hmiss & _)].
  - apply (Hm _ _ Hhit).
  - apply get_rating_well_formed, Hmiss.
Qed.



(** ** Merging the two quote feeds *)

Lemma qt_assignments_list l (q : quote) :
  (45 < length l)%nat ->
  exists q',
    qt_assignments (JArr l) q = (q', None) /\
    q' !! "current_price" =
      (if json_eq_str (default JNull (q !! "current_price")) "--"
       then l !! 3%nat else q !! "current_price") /\
    q' !! "market_cap" = l !! 45%nat /\
    q' !! "pe_ratio" = l !! 39%nat /\
    Forall (fun k => q' !! k = q !! k) price_fields_left_blank.
Proof.
  intros Hlen.
  destruct (py_index_arr l 3 ltac:(lia)) as (v3 & H3 & E3).
  destruct (qt_field_arr l 45) as (v45 & E45 & H45).
  destruct (qt_field_arr l 39) as (v39 & E39 & H39).
  destruct (qt_field_arr l 48) as (v48 & E48 & _).
  destruct (qt_field_arr l 49) as (v49 & E49 & _).
  destruct (qt_field_arr l 47) as (v47 & E47 & _).
  destruct (qt_field_arr l 51) as (v51 & E51 & _).
  destruct (qt_field_arr l 50) as (v50 & E50 & _).
  destruct (qt_field_arr l 43) as (v43 & E43 & _).
  destruct (qt_field_arr l 69) as (v69 & E69 & _).
  destruct (qt_field_arr l 70) as (v70 & E70 & _).
  destruct (qt_field_arr l 72) as (v72 & E72 & _).
  change (Z.of_nat 3) with 3 in E3. change (Z.of_nat 45) with 45 in E45.
  change (Z.of_nat 39) with 39 in E39. change (Z.of_nat 48) with 48 in E48.
  change (Z.of_nat 49) with 49 in E49. change (Z.of_nat 47) with 47 in E47.
  change (Z.of_nat 51) with 51 in E51. change (Z.of_nat 50) with 50 in E50.
  change (Z.of_nat 43) with 43 in E43. change (Z.of_nat 69) with 69 in E69.
  change (Z.of_nat 70) with 70 in E70. change (Z.of_nat 72) with 72 in E72.
  unfold qt_assignments.
  rewrite E3, E45, E39, E48, E49, E47, E51, E50, E43, E69, E70, E72.
  rewrite H3, (H45 ltac:(lia)), (H39 ltac:(lia)).
  destruct (json_eq_str (default JNull (q !! "current_price")) "--");
    unfold assign, finish; (eexists; split; [reflexivity|]);
    (repeat split; try (simplify_map_eq; reflexivity));
    unfold price_fields_left_blank;
    repeat constructor; simplify_map_eq; reflexivity.
Qed.

Lemma sina_merge_fields stamp text (q : quote) :
  str_contains (String dquote EmptyString) text = true ->
  (15 < length (sina_fields text))%nat ->
  forall k i,
    In (k, i) [("current_price", 6); ("change", 7); ("change_percent", 8);
               ("prev_close", 3); ("open", 2); ("high", 4); ("low", 5);
               ("volume", 12); ("turnover", 11)]%nat ->
    sina_merge stamp text q !! k =
      Some (JStr (default EmptyString (sina_fields text !! i))).
Proof.
  intros Hq Hlen k i Hin. unfold sina_merge. rewrite Hq.
  fold (sina_fields text).
  assert (Hl : (15 <? length (sina_fields text))%nat = true) by (apply Nat.ltb_lt; lia).
  rewrite Hl.
  simpl in Hin.
  repeat (destruct Hin as [[= <- <-]|Hin]; [simplify_map_eq; reflexivity|]).
  contradiction.
Qed.

(** X7. When both feeds deliver, the price fields come from the primary
    feed: the current price is the primary feed's seventh field unless that
    field is the placeholder "--" itself, in which case the secondary
    feed's [qt[3]] is taken; change, open, high, low, previous close,
    volume and turnover are the primary feed's, and the market value and
    the P/E are the secondary feed's. *)
Theorem primary_feed_wins_price_fields e text data l :
  q_sina e = Some text ->
  str_contains (String dquote EmptyString) text = true ->
  (15 < length (sina_fields text))%nat ->
  q_tencent e = Some data ->
  find_qt data = Ok (Some (JArr l)) ->
  (45 < length l)%nat ->
  build_stock_info e !! "current_price" =
    (if String.eqb (default EmptyString (sina_fields text !! 6%nat)) "--"
     then l !! 3%nat
     else Some (JStr (default EmptyString (sina_fields text !! 6%nat)))) /\
  (forall k i,
      In (k, i) [("change", 7); ("change_percent", 8); ("prev_close", 3);
                 ("open", 2); ("high", 4); ("low", 5); ("volume", 12);
                 ("turnover", 11)]%nat ->
      build_stock_info e !! k =
        Some (JStr (default EmptyString (sina_fields text !! i)))) /\
  build_stock_info e !! "market_cap" = l !! 45%nat /\
  build_stock_info e !! "pe_ratio" = l !! 39%nat.
Proof.
  clear json_loads int_of_str exn_text render_other render_float render_signed_2f.
  intros Hsina Hq Hlen Hten Hqt Hl.
  unfold build_stock_info. rewrite Hsina, Hten. unfold tencent_merge. rewrite Hqt.
  destruct l as [|x l']; [simpl in Hl; lia|].
  cbn [json_truthy py_len].
  assert (Hn : (45 <? Z.of_nat (length (x :: l'))) = true) by (apply Z.ltb_lt; lia).
  rewrite Hn.
  set (q1 := sina_merge (q_stamp1 e) text (initial_stock_info (q_stamp0 e))).
  destruct (qt_assignments_list (x :: l') q1 Hl)
    as (q' & Hrun & Hp & Hm & Hpe & Hkeep).
  rewrite Hrun. simpl fst.
  assert (Hprice : q1 !! "current_price" =
                   Some (JStr (default EmptyString (sina_fields text !! 6%nat)))).
  { apply sina_merge_fields; [exact Hq|exact Hlen|]. simpl. auto. }
  split; [|split; [|split; [exact Hm|exact Hpe]]].
  - rewrite Hp, Hprice. reflexivity.
  - intros k i Hin.
    assert (Hk : k ∈ price_fields_left_blank).
    { simpl in Hin. unfold price_fields_left_blank.
      repeat (destruct Hin as [[= <- <-]|Hin]; [set_solver|]). contradiction. }
    rewrite Forall_forall in Hkeep. rewrite (Hkeep k Hk).
    apply sina_merge_fields; [exact Hq|exact Hlen|].
    simpl in Hin |- *. tauto.
Qed.

Lemma qt_assignments_object kv (q : quote) :
  45 < Z.of_nat (length kv) -> fst (qt_assignments (JObj kv) q) = q.
Proof.
  intros Hlen. unfold qt_assignments.
  assert (H45 : qt_field (JObj kv) 45 = Raise KeyError).
  { unfold qt_field. simpl. apply Z.ltb_lt in Hlen. rewrite Hlen. reflexivity. }
  rewrite H45. destruct (json_eq_str _ _); reflexivity.
Qed.

(** X8. The secondary feed's answer changes the record only when its [qt]
    is an array or a string of more than 45 entries, and the primary feed's
    only when its text has a quoted part of more than 15 fields. When
    neither delivers such a payload -- no answer, a missing key, a null or
    a short [qt], or a [qt] that is an object -- the record built is the
    placeholder record: "--" in every data field. *)
Theorem unusable_feeds_leave_placeholders e :
  (forall text, q_sina e = Some text ->
     str_contains (String dquote EmptyString) text = false \/
     (length (sina_fields text) <= 15)%nat) ->
  (forall data qt, q_tencent e = Some data ->
     find_qt data = Ok (Some qt) -> usable_qt qt = false) ->
  build_stock_info e = initial_stock_info (q_stamp0 e).
Proof.
  intros Hsina Hten. unfold build_stock_info.
  assert (H1 : match q_sina e with
               | Some text => sina_merge (q_stamp1 e) text (initial_stock_info (q_stamp0 e))
               | None => initial_stock_info (q_stamp0 e)
               end = initial_stock_info (q_stamp0 e)).
  { destruct (q_sina e) as [text|]; [|reflexivity].
    unfold sina_merge. destruct (Hsina text eq_refl) as [-> |Hshort]; [reflexivity|].
    fold (sina_fields text).
    destruct (str_contains _ _); [|reflexivity].
    assert (Hl : (15 <? length (sina_fields text))%nat = false)
      by (apply Nat.ltb_ge; exact Hshort).
    rewrite Hl. reflexivity. }
  rewrite H1. destruct (q_tencent e) as [data|]; [|reflexivity].
  unfold tencent_merge.
  destruct (find_qt data) as [[qt|]|ex] eqn:Hqt; try reflexivity.
  pose proof (Hten data qt eq_refl Hqt) as Hun.
  destruct (json_truthy qt); [|reflexivity].
  destruct qt as [| | | |s|l|kv]; simpl in *; try reflexivity.
  - rewrite Hun. reflexivity.
  - rewrite Hun. reflexivity.
  - destruct (45 <? Z.of_nat (length kv)) eqn:Hlen; [|reflexivity].
    apply qt_assignments_object. apply Z.ltb_lt. exact Hlen.
Qed.

(** ** More on the news ranking *)

Lemma stock_first_length l : length (stock_first l) = length l.
Proof. apply Permutation_length, stock_first_perm. Qed.

(** X9. The cut to 25 drops otherwise-tagged items before stock-tagged
    ones: when an item that is not stock-tagged is in the output, every
    stock-tagged item that survived the de-duplication is in the output. *)
Theorem stock_items_are_cut_last all_news g s :
  g ∈ rank_news all_news ->
  n_tag g ≠ "stock" ->
  s ∈ unique_news all_news ->
  n_tag s = "stock" ->
  s ∈ rank_news all_news.
Proof.
  rewrite !rank_news_spec. unfold stock_first.
  intros Hg Hgt Hs Hst.
  apply elem_of_take in Hg. destruct Hg as (i & Hi & Hlt).
  apply lookup_app_Some in Hi. destruct Hi as [Hi|[Hlen _]].
  { apply list_elem_of_lookup_2, list_elem_of_In, List.filter_In in Hi.
    destruct Hi as [_ Hi]. unfold is_stock in Hi. apply String.eqb_eq in Hi.
    contradiction. }
  assert (Hin : s ∈ List.filter is_stock (unique_news all_news)).
  { apply list_elem_of_In, List.filter_In. split; [apply list_elem_of_In, Hs|].
    unfold is_stock. apply String.eqb_eq. exact Hst. }
  apply list_elem_of_lookup_1 in Hin. destruct Hin as (j & Hj).
  apply elem_of_take. exists j. split.
  - apply lookup_app_l_Some. exact Hj.
  - apply lookup_lt_Some in Hj. lia.
Qed.

Lemma unique_from_fixed seen l :
  NoDup (map n_title l) ->
  (forall x, x ∈ l -> n_title x ∉ seen) ->
  unique_from seen l = l.
Proof.
  revert seen. induction l as [|n rest IH]; intros seen Hnd Hseen; [reflexivity|].
  simpl in *. apply NoDup_cons in Hnd. destruct Hnd as [Hn Hnd].
  rewrite decide_False by (apply Hseen; left).
  f_equal. apply IH; [exact Hnd|].
  intros x Hx. assert (Hne : n_title x ≠ n_title n).
  { intros Heq. apply Hn. rewrite <- Heq. apply list_elem_of_fmap. exists x. auto. }
  assert (Hxs : n_title x ∉ seen) by (apply Hseen; right; exact Hx).
  set_solver.
Qed.

Lemma filter_keeps_all {A} (f : A -> bool) l :
  Forall (fun y => f y = true) l -> List.filter f l = l.
Proof.
  induction 1 as [|y l Hy _ IH]; [reflexivity|]. simpl. rewrite Hy, IH. reflexivity.
Qed.

Lemma filter_keeps_none {A} (f : A -> bool) l :
  Forall (fun y => f y = false) l -> List.filter f l = [].
Proof.
  induction 1 as [|y l Hy _ IH]; [reflexivity|]. simpl. rewrite Hy, IH. reflexivity.
Qed.

Lemma stock_first_take_fixed n l :
  stock_first (take n (stock_first l)) = take n (stock_first l).
Proof.
  unfold stock_first at 2 3. rewrite take_app.
  set (s := take n (List.filter is_stock l)).
  set (g := take (n - length (List.filter is_stock l)) (List.filter not_stock l)).
  assert (Hs : Forall (fun y => is_stock y = true) s)
    by (apply Forall_take, filter_all_true).
  assert (Hg : Forall (fun y => is_stock y = false) g)
    by (apply Forall_take, filter_not_stock_false).
  unfold stock_first. rewrite !List.filter_app.
  rewrite (filter_keeps_all is_stock s Hs), (filter_keeps_none is_stock g Hg).
  rewrite (filter_keeps_none not_stock s), (filter_keeps_all not_stock g).
  - rewrite app_nil_r. reflexivity.
  - eapply Forall_impl; [exact Hg|]. intros y Hy. unfold not_stock. rewrite Hy.
    reflexivity.
  - eapply Forall_impl; [exact Hs|]. intros y Hy. unfold not_stock. rewrite Hy.
    reflexivity.
Qed.

(** X10. Ranking is idempotent: ranking the output of the pipeline again
    changes nothing. *)
Theorem rank_news_idempotent all_news :
  rank_news (rank_news all_news) = rank_news all_news.
Proof.
  rewrite (rank_news_spec (rank_news all_news)).
  assert (Hu : unique_news (rank_news all_news) = rank_news all_news).
  { apply unique_from_fixed; [apply rank_news_nodup|]. intros x _. set_solver. }
  rewrite Hu, rank_news_spec, stock_first_take_fixed, take_take.
  reflexivity.
Qed.

(** X11. The output has as many items as the input has distinct titles,
    capped at 25. *)
Theorem rank_news_length all_news :
  length (rank_news all_news) =
    Nat.min 25 (size (list_to_set (map n_title all_news) : gset string)).
Proof.
  rewrite rank_news_spec, length_take, stock_first_length. f_equal.
  rewrite <- (length_map n_title (unique_news all_news)).
  rewrite <- (size_list_to_set (C := gset string))
    by apply unique_from_nodup.
  f_equal. apply set_eq. intros t. rewrite !elem_of_list_to_set. split.
  - intros Ht. eapply elem_of_sublist; [exact Ht|].
    apply fmap_sublist, unique_from_sublist.
  - intros Ht. apply list_elem_of_fmap in Ht. destruct Ht as (x & -> & Hx).
    destruct (unique_from_covers ∅ all_news x Hx) as (y & Hy & Hty); [set_solver|].
    apply list_elem_of_fmap. exists y. split; [congruence|exact Hy].
Qed.

(** ** The classifier *)

Lemma prefix_app p s t :
  String.prefix p s = true -> String.prefix p (s +:+ t) = true.
Proof.
  revert s. induction p as [|a p IH]; intros s Hp;
    [destruct (s +:+ t); reflexivity|].
  destruct s as [|b s]; [discriminate|]. simpl in *.
  destruct (ascii_dec a b); [|discriminate]. apply IH. exact Hp.
Qed.

Lemma find_sub_at_prefix p s :
  String.prefix p s = true ->
  find_sub p s = Some (EmptyString, drop_bytes (String.length p) s).
Proof.
  intros Hp. destruct p as [|c p]; [destruct s; reflexivity|].
  destruct s as [|a s]; [discriminate|].
  simpl in *. rewrite Hp. reflexivity.
Qed.

Lemma find_sub_cons p a s :
  find_sub p (String a s) =
  if String.prefix p (String a s)
  then Some (EmptyString, drop_bytes (String.length p) (String a s))
  else match find_sub p s with
       | Some (b, r) => Some (String a b, r)
       | None => None
       end.
Proof. reflexivity. Qed.

Lemma str_contains_cons p a s :
  str_contains p (String a s) =
  String.prefix p (String a s) || str_contains p s.
Proof.
  unfold str_contains. rewrite find_sub_cons.
  destruct (String.prefix p (String a s)); [reflexivity|].
  destruct (find_sub p s) as [[b r]|]; reflexivity.
Qed.

Lemma str_contains_app_l p s t :
  str_contains p s = true -> str_contains p (s +:+ t) = true.
Proof.
  induction s as [|a s IH].
  - destruct p as [|c p]; [|discriminate].
    intros _. unfold str_contains.
    rewrite (find_sub_at_prefix EmptyString); [reflexivity|].
    destruct (EmptyString +:+ t); reflexivity.
  - change (String a s +:+ t) with (String a (s +:+ t)).
    rewrite !str_contains_cons. intros H. apply orb_true_iff in H.
    apply orb_true_iff. destruct H as [H|H].
    + left. apply (prefix_app p (String a s) t H).
    + right. apply IH, H.
Qed.

Lemma str_contains_app_r p s t :
  str_contains p t = true -> str_contains p (s +:+ t) = true.
Proof.
  intros Ht. induction s as [|a s IH]; [exact Ht|].
  change (String a s +:+ t) with (String a (s +:+ t)).
  rewrite str_contains_cons, IH. apply orb_true_r.
Qed.

(** X12. A keyword of the fixed list occurring in the title, or in the
    summary, makes the item stock-tagged; an item is general-tagged exactly
    when no keyword occurs in the title followed by the summary. *)
Theorem classify_by_keywords title summary :
  (forall kw, In kw _STOCK_KEYWORDS ->
     str_contains kw title = true \/ str_contains kw summary = true ->
     _classify_news title summary = "stock") /\
  (_classify_news title summary = "general" <->
   forall kw, In kw _STOCK_KEYWORDS -> str_contains kw (title +:+ summary) = false) /\
  (_classify_news title summary = "stock" \/ _classify_news title summary = "general").
Proof.
  unfold _classify_news. split; [|split].
  - intros kw Hkw Hocc.
    assert (Hex : existsb (fun kw => str_contains kw (title +:+ summary))
                    _STOCK_KEYWORDS = true).
    { apply existsb_exists. exists kw. split; [exact Hkw|].
      destruct Hocc as [Ht|Hs]; [apply str_contains_app_l|apply str_contains_app_r];
        assumption. }
    rewrite Hex. reflexivity.
  - destruct (existsb _ _) eqn:Hex; split.
    + discriminate.
    + intros Hnone. apply existsb_exists in Hex. destruct Hex as (kw & Hkw & Hocc).
      rewrite (Hnone kw Hkw) in Hocc. discriminate.
    + intros _ kw Hkw.
      destruct (str_contains kw (title +:+ summary)) eqn:Hocc; [|reflexivity].
      assert (Hex' : existsb (fun kw => str_contains kw (title +:+ summary))
                       _STOCK_KEYWORDS = true)
        by (apply existsb_exists; exists kw; auto).
      congruence.
    + reflexivity.
  - destruct (existsb _ _); auto.
Qed.

(** ** What the templated report reads *)

Lemma last_n_last_n {A} (a b : nat) (l : list A) :
  (a <= b)%nat -> (b <= length l)%nat -> last_n a (last_n b l) = last_n a l.
Proof.
  intros Hab Hb. unfold last_n. rewrite length_drop, drop_drop. f_equal. lia.
Qed.

Lemma candle_view_parts k k' :
  same_candle_view k k' ->
  trend_of k = trend_of k' /\ kline_detail_of k = kline_detail_of k'.
Proof.
  unfold trend_of, kline_detail_of.
  intros [[H1 H2]|[(H1 & H2 & H5)|(H1 & H2 & H20)]].
  - assert (E1 : (5 <=? length k)%nat = false) by (apply Nat.leb_gt; lia).
    assert (E2 : (5 <=? length k')%nat = false) by (apply Nat.leb_gt; lia).
    rewrite E1, E2. split; reflexivity.
  - assert (E1 : (5 <=? length k)%nat = true) by (apply Nat.leb_le; lia).
    assert (E2 : (5 <=? length k')%nat = true) by (apply Nat.leb_le; lia).
    assert (F1 : (20 <=? length k)%nat = false) by (apply Nat.leb_gt; lia).
    assert (F2 : (20 <=? length k')%nat = false) by (apply Nat.leb_gt; lia).
    rewrite E1, E2, F1, F2, H5. split; reflexivity.
  - assert (E1 : (5 <=? length k)%nat = true) by (apply Nat.leb_le; lia).
    assert (E2 : (5 <=? length k')%nat = true) by (apply Nat.leb_le; lia).
    assert (F1 : (20 <=? length k)%nat = true) by (apply Nat.leb_le; lia).
    assert (F2 : (20 <=? length k')%nat = true) by (apply Nat.leb_le; lia).
    assert (H5 : last_n 5 k = last_n 5 k').
    { rewrite <- (last_n_last_n 5 20 k), <- (last_n_last_n 5 20 k') by lia.
      rewrite H20. reflexivity. }
    rewrite E1, E2, F1, F2, H5, H20. split; reflexivity.
Qed.

Lemma news_section_by_first_8 n n' :
  take 8 n = take 8 n' -> news_section_of n = news_section_of n'.
Proof.
  intros H8. unfold news_section_of.
  destruct n as [|x n], n' as [|x' n']; try discriminate H8; [reflexivity|].
  rewrite H8. reflexivity.
Qed.

(** X13. The templated report reads thirteen quote fields, the first
    eight news items and the last five (twenty, when there are that many)
    candles, and nothing else: two invocations that agree on these and on
    the time stamp give the same text, whatever else the quote record, the
    news list and the older candles hold. With fewer than five candles the
    K-line list is not read at all. *)
Theorem report_reads_displayed_data_only now s s' n n' k k' :
  (forall f, f ∈ report_fields -> stock_get s f = stock_get s' f) ->
  take 8 n = take 8 n' ->
  same_candle_view k k' ->
  _generate_fallback_analysis now s n k = _generate_fallback_analysis now s' n' k'.
Proof.
  intros Hs Hn Hk.
  destruct (candle_view_parts k k' Hk) as [Ht Hd].
  pose proof (news_section_by_first_8 n n' Hn) as Hnews.
  assert (Hf : Forall (fun f => stock_get s f = stock_get s' f) report_fields).
  { apply Forall_forall. exact Hs. }
  unfold report_fields in Hf.
  repeat (apply Forall_cons_1 in Hf; destruct Hf as [? Hf]).
  unfold _generate_fallback_analysis. cbv zeta.
  rewrite Ht, Hd, Hnews.
  repeat match goal with
         | H : stock_get s _ = stock_get s' _ |- _ => rewrite !H; clear H
         end.
  reflexivity.
Qed.

(** ** More on the stream consumption *)

Lemma consume_lines_cons line rest :
  consume_lines (line :: rest) =
  if startswith "data: " line then
    if String.eqb (str_strip (drop_bytes 6 line)) "[DONE]" then ([], Terminated)
    else
      match chunk_fragment (drop_bytes 6 line) with
      | Ok (Some content) =>
          let '(out, fin) := consume_lines rest in (content :: out, fin)
      | Ok None => consume_lines rest
      | Raise e => if skipped e then consume_lines rest else ([], Escaped e)
      end
  else consume_lines rest.
Proof. reflexivity. Qed.





(** X15. Nothing after the terminator line is read: the lines that follow
    it change neither the fragments nor the way the loop ends. *)
Theorem lines_after_terminator_are_ignored pre line post :
  is_terminator line ->
  consume_lines (pre ++ line :: post) = consume_lines (pre ++ [line]).
Proof.
  intros [Hs Hdone]. induction pre as [|a pre IH].
  - rewrite !app_nil_l, !consume_lines_cons, Hs, Hdone. reflexivity.
  - rewrite <- !app_comm_cons, !consume_lines_cons, IH. reflexivity.
Qed.

(** X16. Content lines are relayed verbatim, one fragment per line, in
    the order of the lines: a body of content lines yields exactly their
    contents and the loop ends by exhaustion, or by the terminator when
    one follows them. *)
Theorem content_lines_are_relayed_in_order lines contents :
  Forall2 content_line lines contents ->
  consume_lines lines = (contents, Exhausted) /\
  (forall line post, is_terminator line ->
     consume_lines (lines ++ line :: post) = (contents, Terminated)).
Proof.
  intros Hall. induction Hall as [|l c lines contents (Hs & Hne & Hfrag) _ [IH1 IH2]].
  - split; [reflexivity|]. intros line post [Hs Hdone].
    rewrite app_nil_l, consume_lines_cons, Hs, Hdone. reflexivity.
  - apply String.eqb_neq in Hne. split.
    + rewrite consume_lines_cons, Hs, Hne, Hfrag, IH1. reflexivity.
    + intros line post Hterm.
      rewrite <- app_comm_cons, consume_lines_cons, Hs, Hne, Hfrag,
        (IH2 line post Hterm).
      reflexivity.
Qed.

(** ** More on the rating *)

Lemma extract_content_message body msg :
  message_of body = Some msg ->
  extract_content body =
  (let content0 := default JNull (dict_get "content" msg) in
   let content := if json_truthy content0 then content0 else JStr EmptyString in
   content ←
     (if json_truthy content then Ok content
      else match dict_get "parts" msg with
           | None => Ok content
           | Some (JArr l) => Ok (default content (first_text_part l))
           | Some (JObj _) | Some (JStr _) => Ok content
           | Some _ => Raise TypeError
           end);
   match content with
   | JStr s => Ok (str_strip s)
   | _ => Raise AttributeError
   end).
Proof.
  unfold message_of, extract_content, mbind, res_bind.
  destruct body as [| | | | | |kvb]; try discriminate. cbn [py_get].
  destruct (dict_get "choices" kvb) as [[| | | | |[|[| | | | | |first] l]|]|];
    try discriminate.
  change (default (JArr [JObj []]) (Some (JArr (JObj first :: l))))
    with (JArr (JObj first :: l)).
  change (py_index (JArr (JObj first :: l)) 0) with (Ok (JObj first)).
  cbn [py_get].
  destruct (dict_get "message" first) as [[| | | | | |m]|]; try discriminate.
  intros [= ->].
  change (default (JObj []) (Some (JObj msg))) with (JObj msg).
  cbn [py_get]. cbv zeta.
  set (content := if json_truthy (default JNull (dict_get "content" msg))
                  then default JNull (dict_get "content" msg)
                  else JStr EmptyString).
  destruct (json_truthy content); [reflexivity|].
  cbn [py_in py_getitem].
  destruct (dict_get "parts" msg) as [[| | | | | |]|]; reflexivity.
Qed.

(** X17. Where the completion text is taken from: a non-empty string
    under the message's "content" is used, stripped, whatever "parts"
    holds; when the content is missing, null or empty, the "text" of the
    first part that is an object with a truthy "text" is used instead, and
    without "parts" the text is empty. *)
Theorem completion_text_source body msg :
  message_of body = Some msg ->
  (forall s, dict_get "content" msg = Some (JStr s) -> s ≠ EmptyString ->
     extract_content body = Ok (str_strip s)) /\
  (json_truthy (default JNull (dict_get "content" msg)) = false ->
   dict_get "parts" msg = None ->
   extract_content body = Ok EmptyString) /\
  (json_truthy (default JNull (dict_get "content" msg)) = false ->
   forall parts t, dict_get "parts" msg = Some (JArr parts) ->
     first_text_part parts = Some (JStr t) ->
     extract_content body = Ok (str_strip t)).
Proof.
  intros Hmsg. rewrite (extract_content_message body msg Hmsg). cbv zeta.
  split; [|split].
  - intros s Hs Hne. rewrite Hs.
    change (default JNull (Some (JStr s))) with (JStr s).
    apply String.eqb_neq in Hne. cbn [json_truthy]. rewrite Hne. cbn [negb].
    cbn [json_truthy]. rewrite Hne. reflexivity.
  - intros Hfalsy Hparts. rewrite Hfalsy, Hparts. reflexivity.
  - intros Hfalsy parts t Hparts Hfirst. rewrite Hfalsy, Hparts.
    cbn [json_truthy]. change (String.eqb EmptyString EmptyString) with true.
    cbn [negb]. rewrite Hfirst. reflexivity.
Qed.

Lemma get_rating_failure_run e w ex :
  w_rating w !! r_today e = None ->
  r_api_key e ≠ EmptyString ->
  rating_steps (r_today e) (r_answer e) = Raise ex ->
  get_rating e w =
    (failure_rating (r_today e), logged PostRatingCompletion (gathered e w)).
Proof.
  intros Hmiss Hkey Hfail. rewrite (get_rating_miss e w Hmiss). cbv zeta.
  apply String.eqb_neq in Hkey. rewrite Hkey, Hfail. reflexivity.
Qed.

Lemma odd_body_content body :
  odd_body body = true ->
  extract_content body = Ok EmptyString \/ exists ex, extract_content body = Raise ex.
Proof.
  unfold odd_body, extract_content.
  destruct body as [| | | | | |kvb]; try (intros _; right; eexists; reflexivity).
  cbn [py_get]. unfold mbind at 1, res_bind at 1.
  destruct (dict_get "choices" kvb) as [[| | | | |[|x l]|]|]; try discriminate; intros _.
  - right. eexists. reflexivity.
  - left. reflexivity.
Qed.

(** X18. A completion answered with status 200 whose decoded body is not
    an object, has no "choices", or has an empty "choices" list ends in
    the failure rating, and nothing is memoized. *)
Theorem odd_completion_bodies_fail e w text body :
  w_rating w !! r_today e = None ->
  r_api_key e ≠ EmptyString ->
  r_answer e = Ok (200, text) ->
  json_loads text = Some body ->
  odd_body body = true ->
  fst (get_rating e w) = failure_rating (r_today e) /\
  w_rating (snd (get_rating e w)) = w_rating w.
Proof.
  intros Hmiss Hkey Hans Hbody Hodd.
  assert (Hfail : exists ex, rating_steps (r_today e) (r_answer e) = Raise ex).
  { rewrite Hans. unfold rating_steps, mbind, res_bind.
    change (200 =? 200) with true. cbv iota. rewrite Hbody. cbn [or_raise].
    destruct (odd_body_content body Hodd) as [-> |[ex ->]]; eexists; reflexivity. }
  destruct Hfail as [ex Hfail].
  rewrite (get_rating_failure_run e w ex Hmiss Hkey Hfail). simpl.
  split; [reflexivity|]. apply gathered_frame.
Qed.

Lemma unusable_rating_raises today d :
  unusable_rating d = true -> exists ex, validate_rating today d = Raise ex.
Proof.
  unfold unusable_rating. destruct d as [| | | | | |kv];
    try (intros _; eexists; reflexivity).
  intros Hscore. pose proof (validate_rating_object today kv) as Hobj.
  destruct (dict_get "score" kv) as [[| | | | | |]|]; try discriminate;
    simpl in Hobj; eexists; exact Hobj.
Qed.

(** X19. When the rating text decodes to something that is not an object,
    or to an object whose score is null, a list or an object, the whole
    rating is replaced by the failure rating, a valid label included, and
    nothing is memoized. *)
Theorem unusable_rating_objects_fail e w text body content d :
  w_rating w !! r_today e = None ->
  r_api_key e ≠ EmptyString ->
  r_answer e = Ok (200, text) ->
  json_loads text = Some body ->
  extract_content body = Ok content ->
  content ≠ EmptyString ->
  json_loads (clean_result content) = Some d ->
  unusable_rating d = true ->
  fst (get_rating e w) = failure_rating (r_today e) /\
  w_rating (snd (get_rating e w)) = w_rating w.
Proof.
  intros Hmiss Hkey Hans Hbody Hcontent Hne Hload Hbad.
  destruct (unusable_rating_raises (r_today e) d Hbad) as [ex Hex].
  assert (Hfail : rating_steps (r_today e) (r_answer e) = Raise ex).
  { rewrite Hans, (rating_steps_decoded (r_today e) text body content d); assumption. }
  rewrite (get_rating_failure_run e w ex Hmiss Hkey Hfail). simpl.
  split; [reflexivity|]. apply gathered_frame.
Qed.

(** X20. The validation touches four keys only: every other key of the
    model's object, the summary among them, reaches the returned and
    memoized rating unchanged, and a key the model left out, the summary
    included, is not added. *)
Theorem validation_keeps_other_keys e w text body content kv score :
  w_rating w !! r_today e = None ->
  r_api_key e ≠ EmptyString ->
  r_answer e = Ok (200, text) ->
  json_loads text = Some body ->
  extract_content body = Ok content ->
  content ≠ EmptyString ->
  json_loads (clean_result content) = Some (JObj kv) ->
  py_int (default (JInt 50) (dict_get "score" kv)) = Ok score ->
  exists kv',
    fst (get_rating e w) = JObj kv' /\
    w_rating (snd (get_rating e w)) !! r_today e = Some (JObj kv') /\
    (forall k, k ≠ "rating" -> k ≠ "score" -> k ≠ "date" -> k ≠ "factors" ->
               dict_get k kv' = dict_get k kv).
Proof.
  intros Hmiss Hkey Hans Hbody Hcontent Hne Hload Hscore.
  pose proof (validate_rating_object (r_today e) kv) as Hobj.
  rewrite Hscore in Hobj.
  destruct Hobj as (kv' & Hv & _ & _ & _ & _ & _ & _ & Hkeep).
  assert (Hsteps : rating_steps (r_today e) (r_answer e) = Ok (JObj kv')).
  { rewrite Hans, (rating_steps_decoded (r_today e) text body content (JObj kv));
      assumption. }
  exists kv'. rewrite (get_rating_miss e w Hmiss). cbv zeta.
  apply String.eqb_neq in Hkey. rewrite Hkey, Hsteps. simpl.
  split; [reflexivity|]. split; [apply lookup_insert_eq|exact Hkeep].
Qed.

(** X21. Without a key the endpoint answers the fixed neutral rating,
    calls no completion endpoint and memoizes the answer like a computed
    one: every later call on that date returns it, a call with a key and a
    working endpoint included. *)
Theorem no_key_rating_is_memoized e w :
  w_rating w !! r_today e = None ->
  r_api_key e = EmptyString ->
  fst (get_rating e w) = no_key_rating (r_today e) /\
  llm_calls (snd (get_rating e w)) = llm_calls w /\
  (forall e', r_today e' = r_today e ->
     get_rating e' (snd (get_rating e w)) =
       (no_key_rating (r_today e), snd (get_rating e w))).
Proof.
  intros Hmiss Hkey. rewrite (get_rating_miss e w Hmiss). cbv zeta.
  rewrite Hkey. simpl. split; [reflexivity|]. split.
  - unfold llm_calls. simpl. apply (proj2 (gathered_frame e w)).
  - intros e' Htoday. apply get_rating_hit. simpl. rewrite Htoday.
    apply lookup_insert_eq.
Qed.

(** ** Partial relays and independent cache keys *)

Lemma consume_content_prefix lines contents rest :
  Forall2 content_line lines contents ->
  consume_lines (lines ++ rest) =
    (contents ++ fst (consume_lines rest), snd (consume_lines rest)).
Proof.
  intros Hall. induction Hall as [|l c lines contents (Hs & Hne & Hfrag) _ IH].
  - simpl. destruct (consume_lines rest). reflexivity.
  - apply String.eqb_neq in Hne.
    rewrite <- app_comm_cons, consume_lines_cons, Hs, Hne, Hfrag, IH. reflexivity.
Qed.

Lemma escaping_line_head line e post :
  escaping_line line e -> consume_lines (line :: post) = ([], Escaped e).
Proof.
  intros (Hs & Hne & Hfrag & Hskip). apply String.eqb_neq in Hne.
  rewrite consume_lines_cons, Hs, Hne, Hfrag, Hskip. reflexivity.
Qed.

(** X22. When a line raises an exception the inner handler does not
    list, the fragments of the content lines before it have been relayed
    and stay; exactly one more chunk follows, the diagnostic in the generic
    relay and the whole templated report in the analysis stream, and the
    lines after the failing one are not read. *)
Theorem escape_keeps_relayed_fragments lines contents line e post :
  Forall2 content_line lines contents ->
  escaping_line line e ->
  _stream_llm_success (lines ++ line :: post) =
    contents ++ [JStr (LF +:+ "> ⚠️ AI调用异常：" +:+ str_take 100 (exn_text e) +:+ LF)] /\
  (forall now stock_data news_list kline_data,
     stream_ai_analysis_success now stock_data news_list kline_data
       (lines ++ line :: post) =
     contents ++ [JStr (_generate_fallback_analysis now stock_data news_list kline_data)]).
Proof.
  intros Hall Hesc.
  pose proof (consume_content_prefix lines contents (line :: post) Hall) as Hrun.
  rewrite (escaping_line_head line e post Hesc) in Hrun. simpl in Hrun.
  rewrite app_nil_r in Hrun. split.
  - unfold _stream_llm_success. rewrite Hrun. reflexivity.
  - intros now stock_data news_list kline_data.
    unfold stream_ai_analysis_success. rewrite Hrun. reflexivity.
Qed.

Lemma list_call_keeps_quote_entry c w :
  list_call c = true ->
  w_cache (run_call w c) !! "stock_data" = w_cache w !! "stock_data".
Proof.
  destruct c as [e|period count e|e|e|qe ne ke]; try discriminate; intros _; simpl.
  - unfold fetch_kline_data.
    destruct (_get_cache _ _ _) as [v|]; [destruct (truthy v)|]; simpl;
      try reflexivity; unfold _set_cache;
      apply lookup_insert_ne, (kline_key_not_fixed period count).
  - unfold fetch_news.
    destruct (_get_cache _ _ _) as [v|]; [destruct (truthy v)|]; simpl;
      try reflexivity; unfold _set_cache; apply lookup_insert_ne; discriminate.
Qed.

Lemma list_calls_keep_quote_entry cs w :
  forallb list_call cs = true ->
  w_cache (run_calls cs w) !! "stock_data" = w_cache w !! "stock_data".
Proof.
  revert w. induction cs as [|c cs IH]; intros w Hcs; [reflexivity|].
  simpl in Hcs. apply andb_true_iff in Hcs as [Hc Hcs].
  unfold run_calls. simpl. fold (run_calls cs (run_call w c)).
  rewrite (IH _ Hcs). apply list_call_keeps_quote_entry, Hc.
Qed.

(** X23. The cache keys are independent: after a quote fetch that asked
    the feeds, any number of K-line and news requests, whatever they fetch
    and store, leave the quote entry alone, and a quote fetch within the
    life span of the entry is still served from it without a request. *)
Theorem quote_entry_survives_list_fetches e0 cs e w :
  cache_hit (_get_cache (at_lookup (q_clock e0)) "stock_data" (w_cache w)) = false ->
  forallb list_call cs = true ->
  (at_lookup (q_clock e) - at_store (q_clock e0) < CACHE_TTL)%Q ->
  fetch_stock_data e (run_calls cs (snd (fetch_stock_data e0 w))) =
    (fst (fetch_stock_data e0 w), run_calls cs (snd (fetch_stock_data e0 w))).
Proof.
  intros Hmiss Hcs Hfresh.
  apply fetch_stock_served.
  - apply (get_cache_fresh _ _ (at_store (q_clock e0))); [|exact Hfresh].
    rewrite (list_calls_keep_quote_entry cs _ Hcs).
    rewrite (fetch_stock_miss_run e0 w Hmiss). simpl. apply lookup_insert_eq.
  - rewrite (fetch_stock_miss_run e0 w Hmiss). simpl. apply built_quote_truthy.
Qed.
End Pipeline.

(* ===================================================================== *)
(** * Concrete runs *)
(* ===================================================================== *)

(** The cache contract on one key: fresh at 299 s, gone at 300 s, the
    entry still stored. *)
Lemma ttl_cache_run :
  _get_cache 299 "news_data"
    (run_ops [OpSet 5 "stock_data" (VNews [])]
             (_set_cache 0 "news_data" (VKline [one_candle]) ∅))
  = Some (VKline [one_candle]) /\
  _get_cache 300 "news_data"
    (run_ops [OpSet 5 "stock_data" (VNews [])]
             (_set_cache 0 "news_data" (VKline [one_candle]) ∅))
  = None.
Proof.
  destruct (ttl_cache_contract "news_data") as (_ & Hfresh & Hstale & _).
  split.
  - apply Hfresh; [repeat constructor; discriminate|reflexivity].
  - apply Hstale; [repeat constructor; discriminate|].
    vm_compute. discriminate.
Defined.

(** Two calls on one date: the second returns the first call's rating
    although its own completion would rate 回避. *)
Lemma rating_memoized_run :
  get_rating sample_loads no_int_of_str second_call
    (snd (get_rating sample_loads no_int_of_str first_call sample_world))
  = get_rating sample_loads no_int_of_str first_call sample_world /\
  fst (get_rating sample_loads no_int_of_str first_call sample_world)
  = JObj [("rating", JStr "推荐"); ("score", JInt 72); ("date", JStr sample_today);
          ("factors", default_factors)] /\
  fst (get_rating sample_loads no_int_of_str second_call sample_world)
  = JObj [("rating", JStr "回避"); ("score", JInt 12); ("date", JStr sample_today);
          ("factors", default_factors)].
Proof.
  assert (Hstored :
    w_rating (snd (get_rating sample_loads no_int_of_str first_call sample_world))
      !! r_today second_call
    = Some (fst (get_rating sample_loads no_int_of_str first_call sample_world)))
    by (vm_compute; reflexivity).
  split; [|split; vm_compute; reflexivity].
  rewrite (proj1 (rating_memoized_per_date sample_loads no_int_of_str second_call
                    _ _ Hstored)).
  destruct (get_rating sample_loads no_int_of_str first_call sample_world).
  reflexivity.
Defined.

(** The completion [{"rating":"buy-buy","score":150}] end to end. *)
Lemma rating_repair_run :
  fst (get_rating sample_loads no_int_of_str buy_buy_call sample_world)
  = JObj [("rating", JStr "中性"); ("score", JInt 100); ("date", JStr sample_today);
          ("factors", default_factors)] /\
  well_formed_rating sample_today
    (fst (get_rating sample_loads no_int_of_str buy_buy_call sample_world)).
Proof.
  destruct (rating_repair sample_loads no_int_of_str sample_today buy_buy_150)
    as (_ & Hrun & Hobject).
  destruct (Hrun buy_buy_call sample_world
              (completion_text (rating_text "buy-buy" "150"))
              (completion_body (rating_text "buy-buy" "150"))
              (rating_text "buy-buy" "150")) as [Hresult Hwf];
    try (vm_compute; reflexivity); try discriminate.
  split; [|exact Hwf]. rewrite Hresult, Hobject. reflexivity.
Defined.

(** A transport failure: the neutral rating comes back, the memo stays
    empty, and the next call asks the endpoint again. *)
Lemma rating_failure_run :
  fst (get_rating sample_loads no_int_of_str failing_call sample_world)
  = failure_rating sample_today /\
  w_rating (snd (get_rating sample_loads no_int_of_str failing_call sample_world))
  = ∅ /\
  llm_calls (snd (get_rating sample_loads no_int_of_str first_call
                    (snd (get_rating sample_loads no_int_of_str failing_call
                            sample_world)))) = 2%nat.
Proof.
  destruct (rating_failure_not_memoized sample_loads no_int_of_str failing_call
              sample_world TransportError)
    as (Hfst & _ & Hmemo & _ & Hcalls & Hnext & _);
    [reflexivity|discriminate|reflexivity|].
  split; [exact Hfst|]. split; [exact Hmemo|].
  rewrite (Hnext first_call); [|reflexivity|discriminate].
  rewrite Hcalls. reflexivity.
Defined.

(** The claim of C3 as stated fails on [crowded_news]: two of its items
    share the title "twice", and the output has no item of that title. *)
Lemma duplicate_pair_truncated_away :
  plain_item "twice" "general" "新浪财经" ∈ crowded_news /\
  plain_item "twice" "general" "Reuters" ∈ crowded_news /\
  length (rank_news crowded_news) = 25%nat /\
  List.filter (fun n => String.eqb (n_title n) "twice") (rank_news crowded_news) = [] /\
  ~ (exists y, y ∈ rank_news crowded_news /\ n_title y = "twice").
Proof.
  split; [apply list_elem_of_In; vm_compute; tauto|].
  split; [apply list_elem_of_In; vm_compute; tauto|].
  split; [vm_compute; reflexivity|].
  assert (Hnone : List.filter (fun n => String.eqb (n_title n) "twice")
                    (rank_news crowded_news) = []) by (vm_compute; reflexivity).
  split; [exact Hnone|].
  intros (y & Hy & Ht).
  assert (Hin : In y (List.filter (fun n => String.eqb (n_title n) "twice")
                        (rank_news crowded_news))).
  { apply List.filter_In. split; [apply list_elem_of_In; exact Hy|].
    apply String.eqb_eq. exact Ht. }
  rewrite Hnone in Hin. exact Hin.
Qed.




(** The failing input of C9: the null-delta line ends the relay with the
    diagnostic, and the line after it, which alone yields "hello", is lost. *)
Lemma null_delta_run :
  consume_lines stream_loads ["data: " +:+ hello_payload]
  = ([JStr "hello"], Exhausted) /\
  consume_lines stream_loads
    ["data: " +:+ null_delta_payload; "data: " +:+ hello_payload]
  = ([], Escaped TypeError) /\
  _stream_llm_success stream_loads class_name
    ["data: " +:+ null_delta_payload; "data: " +:+ hello_payload]
  = [JStr (LF +:+ "> ⚠️ AI调用异常：TypeError" +:+ LF)].
Proof.
  destruct (null_delta_line_aborts_stream stream_loads class_name
              mute_value mute_float mute_float
              null_delta_payload ["data: " +:+ hello_payload])
    as (_ & _ & Hloop & Hrelay & _);
    [vm_compute; discriminate|vm_compute; reflexivity|].
  split; [vm_compute; reflexivity|]. split; [exact Hloop|].
  rewrite Hrelay. vm_compute. reflexivity.
Defined.

(** An upstream failure leaves an empty list in the cache; one second
    later the same fetch asks the upstream again. *)
Lemma empty_kline_refetch_run :
  fst (fetch_kline_data "day" 60 silent_klines sample_world) = VKline [] /\
  w_log (snd (fetch_kline_data "day" 60 silent_klines
                (snd (fetch_kline_data "day" 60 silent_klines sample_world))))
  = [GetKline "day" 60; GetKline "day" 60].
Proof.
  destruct empty_cached_result_is_refetched as (Hkline & _ & _ & _).
  destruct (Hkline "day" 60 silent_klines
              (snd (fetch_kline_data "day" 60 silent_klines sample_world))
              1%Q (VKline [])) as [Hrun _]; [vm_compute; reflexivity|reflexivity|].
  split; [vm_compute; reflexivity|]. rewrite Hrun. vm_compute. reflexivity.
Defined.

(** ** Further runs *)

(** A quote fetched at second 0 and stored at second 1 is served at
    second 30 without a request. *)
Lemma quote_fetch_served_run :
  fetch_stock_data later_quotes (snd (fetch_stock_data silent_quotes sample_world))
  = (fst (fetch_stock_data silent_quotes sample_world),
     snd (fetch_stock_data silent_quotes sample_world)) /\
  w_log (snd (fetch_stock_data later_quotes
                (snd (fetch_stock_data silent_quotes sample_world))))
  = [GetSinaQuote; GetTencentQuote].
Proof.
  apply (quote_fetch_served_within_ttl silent_quotes later_quotes sample_world);
    [reflexivity|vm_compute; reflexivity].
Defined.

(** A one-candle list and a one-item news list are served from the cache. *)
Lemma list_served_run :
  fetch_kline_data "day" 60 later_klines
    (snd (fetch_kline_data "day" 60 one_day_klines sample_world))
  = (fst (fetch_kline_data "day" 60 one_day_klines sample_world),
     snd (fetch_kline_data "day" 60 one_day_klines sample_world)) /\
  fetch_news later_news (snd (fetch_news one_item_news sample_world))
  = (fst (fetch_news one_item_news sample_world),
     snd (fetch_news one_item_news sample_world)).
Proof.
  destruct nonempty_list_served_within_ttl as [Hkline Hnews]. split.
  - apply (Hkline "day" 60 one_day_klines later_klines sample_world);
      [reflexivity|discriminate|vm_compute; reflexivity].
  - apply (Hnews one_item_news later_news sample_world);
      [reflexivity|vm_compute; discriminate|vm_compute; reflexivity].
Defined.

(** Both feeds answering: the price fields are the primary feed's, the
    market value and the ratio the secondary feed's. *)
Lemma both_feeds_run :
  build_stock_info both_feeds !! "current_price" = Some (JStr "512.500") /\
  build_stock_info both_feeds !! "open" = Some (JStr "510.000") /\
  build_stock_info both_feeds !! "market_cap" = Some (JStr "46630.12").
Proof.
  destruct (primary_feed_wins_price_fields both_feeds sample_sina_text
              sample_tencent_answer sample_qt) as (Hprice & Hfields & Hcap & _);
    [reflexivity|vm_compute; reflexivity|vm_compute; lia|reflexivity
    |vm_compute; reflexivity|vm_compute; lia|].
  split; [rewrite Hprice; vm_compute; reflexivity|]. split.
  - rewrite (Hfields "open" 2%nat); [vm_compute; reflexivity|].
    right. right. right. left. reflexivity.
  - rewrite Hcap. vm_compute. reflexivity.
Defined.

(** Both feeds answering with nothing usable: the placeholders stay. *)
Lemma broken_feeds_run :
  build_stock_info broken_feeds = initial_stock_info "2026-01-05 09:30:00".
Proof.
  apply (unusable_feeds_leave_placeholders broken_feeds).
  - intros text [= <-]. left. vm_compute. reflexivity.
  - intros data qt [= <-] Hqt. vm_compute in Hqt. injection Hqt as <-. reflexivity.
Defined.

(** A stock item gathered after a general one that made the cut. *)
Lemma stock_item_kept_run :
  plain_item "b" "stock" "新浪财经" ∈ rank_news mixed_news.
Proof.
  apply (stock_items_are_cut_last mixed_news (plain_item "a" "general" "Reuters"));
    [apply list_elem_of_In; vm_compute; tauto|discriminate
    |apply list_elem_of_In; vm_compute; tauto|reflexivity].
Defined.

(** The report does not see the time stamp of the quote, nor a K-line
    list of fewer than five candles. *)
Lemma report_hidden_data_run :
  _generate_fallback_analysis mute_value mute_float mute_float "2026-01-05 09:30"
    (initial_stock_info "2026-01-05 09:30:00") [] [one_candle]
  = _generate_fallback_analysis mute_value mute_float mute_float "2026-01-05 09:30"
      (<["updated_at" := JStr "2026-01-05 09:31:00"]>
         (initial_stock_info "2026-01-05 09:30:00")) [] [].
Proof.
  apply report_reads_displayed_data_only.
  - intros f Hf. apply list_elem_of_In in Hf.
    repeat (destruct Hf as [<-|Hf]; [vm_compute; reflexivity|]). destruct Hf.
  - reflexivity.
  - left. split; vm_compute; lia.
Defined.


(** The chunk after the terminator is not relayed. *)
Lemma terminator_run :
  consume_lines stream_loads
    ["data: " +:+ hello_payload; "data: [DONE]"; "data: " +:+ hello_payload]
  = ([JStr "hello"], Terminated).
Proof.
  transitivity (consume_lines stream_loads
                  (["data: " +:+ hello_payload] ++ ["data: [DONE]"]));
    [|vm_compute; reflexivity].
  apply (lines_after_terminator_are_ignored stream_loads
           ["data: " +:+ hello_payload] "data: [DONE]" ["data: " +:+ hello_payload]).
  split; vm_compute; reflexivity.
Defined.

(** Two content chunks are relayed in their order. *)
Lemma relay_order_run :
  consume_lines stream_loads ["data: " +:+ hello_payload; "data: " +:+ hello_payload]
  = ([JStr "hello"; JStr "hello"], Exhausted).
Proof.
  assert (Hline : content_line stream_loads ("data: " +:+ hello_payload) (JStr "hello")).
  { split; [vm_compute; reflexivity|].
    split; [vm_compute; discriminate|vm_compute; reflexivity]. }
  apply (content_lines_are_relayed_in_order stream_loads).
  constructor; [exact Hline|]. constructor; [exact Hline|constructor].
Defined.

(** The content of a completion is stripped. *)
Lemma completion_text_run :
  extract_content (completion_body " hi ") = Ok "hi".
Proof.
  destruct (completion_text_source (completion_body " hi ")
              [("content", JStr " hi ")]) as (Hcontent & _); [reflexivity|].
  rewrite (Hcontent " hi "); [vm_compute; reflexivity|reflexivity|discriminate].
Defined.

(** A completion whose body is a list. *)
Lemma odd_body_run :
  fst (get_rating odd_loads no_int_of_str odd_call sample_world)
  = failure_rating sample_today /\
  w_rating (snd (get_rating odd_loads no_int_of_str odd_call sample_world)) = ∅.
Proof.
  apply (odd_completion_bodies_fail odd_loads no_int_of_str odd_call sample_world
           "[]" (JArr []));
    [reflexivity|discriminate|reflexivity|reflexivity|reflexivity].
Defined.

(** A valid label with a null score. *)
Lemma null_score_run :
  fst (get_rating null_score_loads no_int_of_str null_score_call sample_world)
  = failure_rating sample_today /\
  w_rating (snd (get_rating null_score_loads no_int_of_str null_score_call
                   sample_world)) = ∅.
Proof.
  apply (unusable_rating_objects_fail null_score_loads no_int_of_str
           null_score_call sample_world
           (completion_text (rating_text "推荐" "null"))
           (completion_body (rating_text "推荐" "null"))
           (rating_text "推荐" "null") (JObj null_score_object));
    try (vm_compute; reflexivity); discriminate.
Defined.

(** The summary of the model's object reaches the reply. *)
Lemma summary_kept_run :
  exists kv',
    fst (get_rating summary_loads no_int_of_str summary_call sample_world) = JObj kv' /\
    dict_get "summary" kv' = Some (JStr "ok").
Proof.
  destruct (validation_keeps_other_keys summary_loads no_int_of_str summary_call
              sample_world (completion_text summary_text)
              (completion_body summary_text) summary_text summary_object 72)
    as (kv' & Hfst & _ & Hkeep);
    try (vm_compute; reflexivity); try discriminate.
  exists kv'. split; [exact Hfst|]. rewrite Hkeep by discriminate. reflexivity.
Defined.

(** After a call without a key, a call with a key and a working endpoint
    still gets the neutral rating. *)
Lemma keyless_run :
  fst (get_rating sample_loads no_int_of_str keyless_call sample_world)
  = no_key_rating sample_today /\
  fst (get_rating sample_loads no_int_of_str first_call
         (snd (get_rating sample_loads no_int_of_str keyless_call sample_world)))
  = no_key_rating sample_today.
Proof.
  destruct (no_key_rating_is_memoized sample_loads no_int_of_str keyless_call
              sample_world) as (Hfst & _ & Hnext); [reflexivity|reflexivity|].
  split; [exact Hfst|]. rewrite (Hnext first_call) by reflexivity. reflexivity.
Defined.

(** One fragment relayed, then the line with the null delta: the fragment
    stays and the diagnostic follows. *)
Lemma partial_relay_run :
  _stream_llm_success stream_loads class_name
    ["data: " +:+ hello_payload; "data: " +:+ null_delta_payload;
     "data: " +:+ hello_payload]
  = [JStr "hello"; JStr (LF +:+ "> ⚠️ AI调用异常：TypeError" +:+ LF)].
Proof.
  destruct (escape_keeps_relayed_fragments stream_loads class_name
              mute_value mute_float mute_float
              ["data: " +:+ hello_payload] [JStr "hello"]
              ("data: " +:+ null_delta_payload) TypeError
              ["data: " +:+ hello_payload]) as [Hrelay _].
  - constructor; [|constructor]. split; [vm_compute; reflexivity|].
    split; [vm_compute; discriminate|vm_compute; reflexivity].
  - split; [vm_compute; reflexivity|]. split; [vm_compute; discriminate|].
    split; vm_compute; reflexivity.
  - etransitivity; [exact Hrelay|]. vm_compute. reflexivity.
Defined.

(** A K-line request and a news request between two quote fetches. *)
Lemma quote_survives_run :
  fetch_stock_data later_quotes
    (run_calls sample_loads no_int_of_str
       [CallKline "day" 60 one_day_klines; CallNews one_item_news]
       (snd (fetch_stock_data silent_quotes sample_world)))
  = (fst (fetch_stock_data silent_quotes sample_world),
     run_calls sample_loads no_int_of_str
       [CallKline "day" 60 one_day_klines; CallNews one_item_news]
       (snd (fetch_stock_data silent_quotes sample_world))).
Proof.
  apply (quote_entry_survives_list_fetches sample_loads no_int_of_str silent_quotes
           [CallKline "day" 60 one_day_klines; CallNews one_item_news]
           later_quotes sample_world);
    [reflexivity|reflexivity|vm_compute; reflexivity].
Defined.
